(** * Utility-rate reconciliation pipeline: a shallow embedding

    The development follows [src/data/utilities/fetch_utility_rates.py]:
    the reference tables, the rate client [api_call], the record
    extractor ([extract_rate_from_structure], [classify_rate_structure],
    [has_demand_charges], [classify_utility_type]), the reconciler
    [fetch_utilities_for_state] and the national roll-up of [main].

    Conventions of the embedding.
    - A decoded JSON document is a [json] value.  Python keeps integers
      and floats apart ([JInt], [JFloat]); a float is modelled by the
      rational it denotes, so IEEE rounding error, NaN and the infinities
      are outside the embedding.
    - A Python exception is a [Raise] result of the error monad [res];
      [Unmodelled] marks the one operation the embedding does not follow,
      the ordering of two arrays.
    - Strings are byte strings; [lower] folds the ASCII letters.
    - The network, the clock used by [time.sleep] and the attempt counter
      live in an explicit [world] that is threaded through the calls.
    - [print] output is not modelled. *)

From Stdlib Require Import ZArith QArith Qround Qreduction Bool List String Ascii Lia.
From Stdlib Require Import DecimalString DecimalZ Permutation.
From Stdlib Require Import Sorted Lqa.
Import ListNotations.

Local Open Scope string_scope.
Local Open Scope Z_scope.
Local Open Scope Q_scope.

Set Warnings "-register-all".

(** ** Python values *)

Inductive json : Type :=
| JNull
| JBool (b : bool)
| JInt (z : Z)
| JFloat (q : Q)
| JStr (s : string)
| JArr (l : list json)
| JObj (m : list (string * json)).

(** A decoded JSON object, that is a Python [dict] with string keys. *)
Definition obj := list (string * json).

Inductive net_exn := URLError | HTTPError | JSONDecodeError | OtherError.

Inductive exn :=
| TypeError
| AttributeError
| KeyError
| IndexError
| SystemExit (code : Z)
| NetworkError (e : net_exn)
| Unmodelled.

Inductive res (A : Type) : Type :=
| Ok (a : A)
| Raise (e : exn).

Arguments Ok {A} a.
Arguments Raise {A} e.

Definition bind {A B : Type} (c : res A) (k : A -> res B) : res B :=
  match c with
  | Ok a => k a
  | Raise e => Raise e
  end.

Notation "x <- c ;; k" := (bind c (fun x => k))
  (at level 61, c at next level, right associativity).
Notation "' p <- c ;; k" := (bind c (fun x => let p := x in k))
  (at level 61, p pattern, c at next level, right associativity).

(** [for x in xs: acc = step(acc, x)], stopping at the first exception. *)
Fixpoint for_each {A S : Type} (step : S -> A -> res S) (xs : list A) (acc : S) : res S :=
  match xs with
  | [] => Ok acc
  | x :: xs' => acc' <- step acc x ;; for_each step xs' acc'
  end.

(** [k in d] and [d.get(k)], [d.get(k, default)] on a dict. *)
Fixpoint obj_get (k : string) (m : obj) : option json :=
  match m with
  | [] => None
  | (k', v) :: m' => if String.eqb k k' then Some v else obj_get k m'
  end.

Definition get_default (m : obj) (k : string) (default : json) : json :=
  match obj_get k m with
  | Some v => v
  | None => default
  end.

(** Lookup in a reference table, [TABLE.get(key, default)]. *)
Fixpoint assoc {A : Type} (k : string) (t : list (string * A)) : option A :=
  match t with
  | [] => None
  | (k', v) :: t' => if String.eqb k k' then Some v else assoc k t'
  end.

Definition table_get {A : Type} (t : list (string * A)) (k : string) (default : A) : A :=
  match assoc k t with
  | Some v => v
  | None => default
  end.

(** Python truth value. *)
Definition truthy (v : json) : bool :=
  match v with
  | JNull => false
  | JBool b => b
  | JInt z => negb (z =? 0)%Z
  | JFloat q => negb (Qeq_bool q 0)
  | JStr s => negb (String.eqb s "")
  | JArr l => match l with [] => false | _ => true end
  | JObj m => match m with [] => false | _ => true end
  end.

(** The number a value denotes in arithmetic; [bool] is a subclass of
    [int].  [None] where [+], [/] or an ordering raises [TypeError]. *)
Definition to_number (v : json) : option Q :=
  match v with
  | JBool b => Some (if b then 1 else 0)
  | JInt z => Some (inject_Z z)
  | JFloat q => Some q
  | _ => None
  end.

Definition chars (s : string) : list json :=
  map (fun c => JStr (String c EmptyString)) (list_ascii_of_string s).

(** [for x in v]: a list yields its elements, a string its characters,
    a dict its keys; anything else is not iterable. *)
Definition py_iter (v : json) : res (list json) :=
  match v with
  | JArr l => Ok l
  | JStr s => Ok (chars s)
  | JObj m => Ok (map (fun kv => JStr (fst kv)) m)
  | _ => Raise TypeError
  end.

Definition py_len (v : json) : res nat :=
  match v with
  | JArr l => Ok (List.length l)
  | JStr s => Ok (String.length s)
  | JObj m => Ok (List.length m)
  | _ => Raise TypeError
  end.

(** Hashable values as dictionary keys and set members: [1], [1.0] and
    [True] are one key; lists and dicts are unhashable. *)
Inductive pykey :=
| KNone
| KNum (q : Q)
| KStr (s : string).

Definition key_of (v : json) : res pykey :=
  match v with
  | JNull => Ok KNone
  | JBool b => Ok (KNum (if b then 1 else 0))
  | JInt z => Ok (KNum (inject_Z z))
  | JFloat q => Ok (KNum (Qred q))
  | JStr s => Ok (KStr s)
  | JArr _ | JObj _ => Raise TypeError
  end.

Definition key_eqb (a b : pykey) : bool :=
  match a, b with
  | KNone, KNone => true
  | KNum p, KNum q => (Qnum p =? Qnum q)%Z && (Qden p =? Qden q)%positive
  | KStr s, KStr t => String.eqb s t
  | _, _ => false
  end.

(** [a > b].  Numbers compare by value, strings by code point; ordering
    two arrays recurses through their elements and is left outside the
    embedding; every other pair raises [TypeError]. *)
Definition py_gt (a b : json) : res bool :=
  match to_number a, to_number b with
  | Some x, Some y => Ok (if Qlt_le_dec y x then true else false)
  | _, _ =>
      match a, b with
      | JStr s, JStr t => Ok (String.ltb t s)
      | JArr _, JArr _ => Raise Unmodelled
      | _, _ => Raise TypeError
      end
  end.

(** ** Strings *)

Definition lower_ascii (c : ascii) : ascii :=
  let n := nat_of_ascii c in
  if (65 <=? n)%nat && (n <=? 90)%nat then ascii_of_nat (n + 32) else c.

(** [s.lower()] on ASCII letters; other bytes are kept. *)
Fixpoint lower (s : string) : string :=
  match s with
  | EmptyString => EmptyString
  | String c s' => String (lower_ascii c) (lower s')
  end.

(** [needle in hay] on strings. *)
Fixpoint contains (needle hay : string) : bool :=
  String.prefix needle hay ||
  match hay with
  | EmptyString => false
  | String _ hay' => contains needle hay'
  end.

(** [str(n)] of an integer. *)
Definition str_int (z : Z) : string := NilZero.string_of_int (Z.to_int z).

(** ** Rounding *)

Definition round_half_even (x : Q) : Z :=
  let f := Qfloor x in
  match Qcompare (x - inject_Z f) (1 # 2) with
  | Lt => f
  | Gt => (f + 1)%Z
  | Eq => if Z.even f then f else (f + 1)%Z
  end.

Definition pow10 (ndigits : nat) : positive := Pos.pow 10 (Pos.of_nat ndigits).

(** [round(x, ndigits)] for [ndigits >= 1]: the nearest multiple of
    [10^-ndigits], ties to the even one. *)
Definition py_round (x : Q) (ndigits : nat) : Q :=
  round_half_even (x * inject_Z (Zpos (pow10 ndigits))) # pow10 ndigits.

(** ** Reference tables *)

Record policy := mk_policy {
  p_has_net_metering : bool;
  p_net_metering_type : string;
  p_export_rate : option Q
}.

Definition STATE_QUERY_POINTS : list (string * list (string * Q * Q)) :=
  [
   ("AL", [("Birmingham", (3352 # 100), (- 8681 # 100)); ("Mobile", (3069 # 100), (- 8804 # 100)); ("Huntsville", (3473 # 100), (- 8659 # 100))]);
   ("AK", [("Anchorage", (6122 # 100), (- 14990 # 100)); ("Fairbanks", (6484 # 100), (- 14772 # 100)); ("Juneau", (5830 # 100), (- 13442 # 100))]);
   ("AZ", [("Phoenix", (3345 # 100), (- 11207 # 100)); ("Tucson", (3222 # 100), (- 11097 # 100)); ("Flagstaff", (3520 # 100), (- 11165 # 100))]);
   ("AR", [("Little Rock", (3475 # 100), (- 9229 # 100)); ("Fayetteville", (3606 # 100), (- 9416 # 100)); ("Jonesboro", (3584 # 100), (- 9070 # 100))]);
   ("CA", [("Los Angeles", (3405 # 100), (- 11824 # 100)); ("San Francisco", (3777 # 100), (- 12242 # 100)); ("Sacramento", (3858 # 100), (- 12149 # 100)); ("San Diego", (3272 # 100), (- 11716 # 100))]);
   ("CO", [("Denver", (3974 # 100), (- 10499 # 100)); ("Colorado Springs", (3883 # 100), (- 10482 # 100)); ("Grand Junction", (3906 # 100), (- 10855 # 100))]);
   ("CT", [("Hartford", (4176 # 100), (- 7268 # 100)); ("New Haven", (4131 # 100), (- 7292 # 100)); ("Stamford", (4105 # 100), (- 7354 # 100))]);
   ("DE", [("Wilmington", (3974 # 100), (- 7555 # 100)); ("Dover", (3916 # 100), (- 7552 # 100))]);
   ("FL", [("Miami", (2576 # 100), (- 8019 # 100)); ("Orlando", (2854 # 100), (- 8138 # 100)); ("Tampa", (2795 # 100), (- 8246 # 100)); ("Jacksonville", (3033 # 100), (- 8166 # 100))]);
   ("GA", [("Atlanta", (3375 # 100), (- 8439 # 100)); ("Savannah", (3208 # 100), (- 8109 # 100)); ("Augusta", (3347 # 100), (- 8197 # 100))]);
   ("HI", [("Honolulu", (2131 # 100), (- 15786 # 100)); ("Hilo", (1972 # 100), (- 15508 # 100)); ("Kahului", (2089 # 100), (- 15647 # 100))]);
   ("ID", [("Boise", (4362 # 100), (- 11620 # 100)); ("Idaho Falls", (4347 # 100), (- 11203 # 100)); ("Coeur d'Alene", (4768 # 100), (- 11678 # 100))]);
   ("IL", [("Chicago", (4188 # 100), (- 8763 # 100)); ("Springfield", (3978 # 100), (- 8965 # 100)); ("Rockford", (4227 # 100), (- 8909 # 100))]);
   ("IN", [("Indianapolis", (3977 # 100), (- 8616 # 100)); ("Fort Wayne", (4108 # 100), (- 8514 # 100)); ("Evansville", (3797 # 100), (- 8756 # 100))]);
   ("IA", [("Des Moines", (4159 # 100), (- 9362 # 100)); ("Cedar Rapids", (4198 # 100), (- 9166 # 100)); ("Davenport", (4152 # 100), (- 9058 # 100))]);
   ("KS", [("Wichita", (3769 # 100), (- 9734 # 100)); ("Topeka", (3905 # 100), (- 9568 # 100)); ("Kansas City", (3911 # 100), (- 9463 # 100))]);
   ("KY", [("Louisville", (3825 # 100), (- 8576 # 100)); ("Lexington", (3804 # 100), (- 8450 # 100)); ("Bowling Green", (3699 # 100), (- 8644 # 100))]);
   ("LA", [("New Orleans", (2995 # 100), (- 9007 # 100)); ("Baton Rouge", (3045 # 100), (- 9119 # 100)); ("Shreveport", (3253 # 100), (- 9375 # 100))]);
   ("ME", [("Portland", (4366 # 100), (- 7026 # 100)); ("Bangor", (4480 # 100), (- 6877 # 100)); ("Augusta", (4431 # 100), (- 6978 # 100))]);
   ("MD", [("Baltimore", (3929 # 100), (- 7661 # 100)); ("Rockville", (3908 # 100), (- 7715 # 100)); ("Annapolis", (3898 # 100), (- 7649 # 100))]);
   ("MA", [("Boston", (4236 # 100), (- 7106 # 100)); ("Worcester", (4226 # 100), (- 7180 # 100)); ("Springfield", (4210 # 100), (- 7259 # 100))]);
   ("MI", [("Detroit", (4233 # 100), (- 8305 # 100)); ("Grand Rapids", (4296 # 100), (- 8566 # 100)); ("Traverse City", (4476 # 100), (- 8562 # 100))]);
   ("MN", [("Minneapolis", (4498 # 100), (- 9327 # 100)); ("Rochester", (4402 # 100), (- 9247 # 100)); ("Duluth", (4679 # 100), (- 9210 # 100))]);
   ("MS", [("Jackson", (3230 # 100), (- 9018 # 100)); ("Gulfport", (3037 # 100), (- 8909 # 100)); ("Tupelo", (3426 # 100), (- 8870 # 100))]);
   ("MO", [("Kansas City", (3910 # 100), (- 9458 # 100)); ("St. Louis", (3863 # 100), (- 9020 # 100)); ("Springfield", (3722 # 100), (- 9329 # 100))]);
   ("MT", [("Billings", (4578 # 100), (- 10850 # 100)); ("Missoula", (4687 # 100), (- 11400 # 100)); ("Great Falls", (4751 # 100), (- 11130 # 100))]);
   ("NE", [("Omaha", (4126 # 100), (- 9594 # 100)); ("Lincoln", (4081 # 100), (- 9670 # 100)); ("Grand Island", (4092 # 100), (- 9834 # 100))]);
   ("NV", [("Las Vegas", (3617 # 100), (- 11514 # 100)); ("Reno", (3953 # 100), (- 11981 # 100)); ("Carson City", (3916 # 100), (- 11977 # 100))]);
   ("NH", [("Manchester", (4299 # 100), (- 7146 # 100)); ("Concord", (4321 # 100), (- 7154 # 100)); ("Nashua", (4277 # 100), (- 7147 # 100))]);
   ("NJ", [("Newark", (4074 # 100), (- 7417 # 100)); ("Trenton", (4022 # 100), (- 7476 # 100)); ("Atlantic City", (3936 # 100), (- 7442 # 100))]);
   ("NM", [("Albuquerque", (3508 # 100), (- 10665 # 100)); ("Las Cruces", (3235 # 100), (- 10676 # 100)); ("Santa Fe", (3569 # 100), (- 10594 # 100))]);
   ("NY", [("New York", (4071 # 100), (- 7401 # 100)); ("Buffalo", (4289 # 100), (- 7888 # 100)); ("Albany", (4265 # 100), (- 7375 # 100)); ("Syracuse", (4305 # 100), (- 7615 # 100))]);
   ("NC", [("Charlotte", (3523 # 100), (- 8084 # 100)); ("Raleigh", (3578 # 100), (- 7864 # 100)); ("Asheville", (3560 # 100), (- 8255 # 100))]);
   ("ND", [("Fargo", (4688 # 100), (- 9679 # 100)); ("Bismarck", (4681 # 100), (- 10078 # 100)); ("Grand Forks", (4793 # 100), (- 9703 # 100))]);
   ("OH", [("Columbus", (3996 # 100), (- 8300 # 100)); ("Cleveland", (4150 # 100), (- 8169 # 100)); ("Cincinnati", (3910 # 100), (- 8451 # 100))]);
   ("OK", [("Oklahoma City", (3547 # 100), (- 9752 # 100)); ("Tulsa", (3615 # 100), (- 9599 # 100)); ("Lawton", (3460 # 100), (- 9839 # 100))]);
   ("OR", [("Portland", (4552 # 100), (- 12268 # 100)); ("Eugene", (4405 # 100), (- 12309 # 100)); ("Bend", (4406 # 100), (- 12131 # 100))]);
   ("PA", [("Philadelphia", (3995 # 100), (- 7517 # 100)); ("Pittsburgh", (4044 # 100), (- 8000 # 100)); ("Harrisburg", (4027 # 100), (- 7688 # 100))]);
   ("RI", [("Providence", (4182 # 100), (- 7141 # 100)); ("Warwick", (4170 # 100), (- 7142 # 100))]);
   ("SC", [("Charleston", (3278 # 100), (- 7993 # 100)); ("Columbia", (3400 # 100), (- 8103 # 100)); ("Greenville", (3485 # 100), (- 8240 # 100))]);
   ("SD", [("Sioux Falls", (4355 # 100), (- 9673 # 100)); ("Rapid City", (4408 # 100), (- 10323 # 100)); ("Aberdeen", (4546 # 100), (- 9849 # 100))]);
   ("TN", [("Nashville", (3616 # 100), (- 8678 # 100)); ("Memphis", (3515 # 100), (- 9005 # 100)); ("Knoxville", (3596 # 100), (- 8392 # 100))]);
   ("TX", [("Houston", (2976 # 100), (- 9537 # 100)); ("Dallas", (3278 # 100), (- 9680 # 100)); ("Austin", (3027 # 100), (- 9774 # 100)); ("San Antonio", (2942 # 100), (- 9849 # 100))]);
   ("UT", [("Salt Lake City", (4076 # 100), (- 11189 # 100)); ("Provo", (4023 # 100), (- 11166 # 100)); ("St. George", (3710 # 100), (- 11358 # 100))]);
   ("VT", [("Burlington", (4448 # 100), (- 7321 # 100)); ("Montpelier", (4426 # 100), (- 7258 # 100)); ("Rutland", (4361 # 100), (- 7297 # 100))]);
   ("VA", [("Richmond", (3754 # 100), (- 7744 # 100)); ("Virginia Beach", (3685 # 100), (- 7598 # 100)); ("Roanoke", (3727 # 100), (- 7994 # 100))]);
   ("WA", [("Seattle", (4761 # 100), (- 12233 # 100)); ("Spokane", (4766 # 100), (- 11743 # 100)); ("Tacoma", (4725 # 100), (- 12244 # 100))]);
   ("WV", [("Charleston", (3835 # 100), (- 8163 # 100)); ("Huntington", (3842 # 100), (- 8245 # 100)); ("Morgantown", (3963 # 100), (- 7996 # 100))]);
   ("WI", [("Milwaukee", (4304 # 100), (- 8791 # 100)); ("Madison", (4307 # 100), (- 8940 # 100)); ("Green Bay", (4451 # 100), (- 8802 # 100))]);
   ("WY", [("Cheyenne", (4114 # 100), (- 10482 # 100)); ("Casper", (4287 # 100), (- 10631 # 100)); ("Laramie", (4131 # 100), (- 10559 # 100))])].

Definition MAJOR_IOUS : list (string * list (string * Z)) :=
  [("AL", [("Alabama Power Co", 1500000%Z); ("Tennessee Valley Authority", 0%Z)]);
   ("AK", [("Chugach Electric Assn Inc", 92000%Z); ("Golden Valley Elec Assn Inc", 45000%Z); ("Matanuska Electric Assn Inc", 60000%Z)]);
   ("AZ", [("Arizona Public Service Co", 1300000%Z); ("Tucson Electric Power Co", 430000%Z); ("Salt River Project", 1100000%Z)]);
   ("AR", [("Entergy Arkansas LLC", 720000%Z); ("Southwestern Electric Power Co", 110000%Z); ("Empire District Electric Co", 50000%Z)]);
   ("CA", [("Pacific Gas & Electric Co", 5500000%Z); ("Southern California Edison Co", 5100000%Z); ("San Diego Gas & Electric Co", 1500000%Z); ("Los Angeles Dept of Water & Power", 1500000%Z); ("Sacramento Municipal Util Dist", 650000%Z)]);
   ("CO", [("Public Service Co of Colorado", 1500000%Z); ("Colorado Springs Utilities", 240000%Z); ("Black Hills Colorado Electric", 100000%Z)]);
   ("CT", [("Eversource Energy", 1300000%Z); ("United Illuminating Co", 340000%Z)]);
   ("DE", [("Delmarva Power", 310000%Z)]);
   ("FL", [("Florida Power & Light Co", 5600000%Z); ("Duke Energy Florida LLC", 1900000%Z); ("Tampa Electric Co", 800000%Z); ("JEA", 490000%Z); ("Gulf Power Co", 480000%Z)]);
   ("GA", [("Georgia Power Co", 2700000%Z); ("Cobb EMC", 200000%Z); ("Jackson EMC", 230000%Z)]);
   ("HI", [("Hawaiian Electric Co Inc", 470000%Z); ("Maui Electric Co Ltd", 75000%Z); ("Hawaii Electric Light Co Inc", 85000%Z)]);
   ("ID", [("Idaho Power Co", 600000%Z); ("Rocky Mountain Power", 90000%Z); ("Avista Corp", 50000%Z)]);
   ("IL", [("Commonwealth Edison Co", 4000000%Z); ("Ameren Illinois Co", 1200000%Z); ("MidAmerican Energy Co", 150000%Z)]);
   ("IN", [("Indiana Michigan Power Co", 470000%Z); ("Duke Energy Indiana LLC", 850000%Z); ("Indianapolis Power & Light Co", 500000%Z); ("Indiana & Michigan Electric", 200000%Z)]);
   ("IA", [("MidAmerican Energy Co", 780000%Z); ("Alliant Energy", 500000%Z); ("Interstate Power and Light Co", 230000%Z)]);
   ("KS", [("Evergy Kansas Central", 700000%Z); ("Evergy Kansas Metro", 330000%Z); ("Empire District Electric Co", 50000%Z)]);
   ("KY", [("Kentucky Utilities Co", 540000%Z); ("Louisville Gas & Electric Co", 410000%Z); ("Duke Energy Kentucky", 150000%Z); ("Kentucky Power Co", 165000%Z)]);
   ("LA", [("Entergy Louisiana LLC", 1100000%Z); ("Cleco Power LLC", 300000%Z); ("Southwestern Electric Power Co", 150000%Z)]);
   ("ME", [("Central Maine Power Co", 640000%Z); ("Versant Power", 160000%Z)]);
   ("MD", [("Baltimore Gas & Electric Co", 1300000%Z); ("Potomac Electric Power Co", 600000%Z); ("Delmarva Power", 200000%Z)]);
   ("MA", [("Eversource Energy", 1500000%Z); ("National Grid", 1300000%Z); ("Unitil Energy Systems", 110000%Z)]);
   ("MI", [("DTE Electric Co", 2200000%Z); ("Consumers Energy Co", 1800000%Z); ("Indiana Michigan Power Co", 80000%Z)]);
   ("MN", [("Northern States Power Co", 1500000%Z); ("Minnesota Power", 150000%Z); ("Otter Tail Power Co", 65000%Z)]);
   ("MS", [("Entergy Mississippi LLC", 460000%Z); ("Mississippi Power Co", 190000%Z); ("Tennessee Valley Authority", 0%Z)]);
   ("MO", [("Ameren Missouri", 1200000%Z); ("Evergy Missouri West", 300000%Z); ("Empire District Electric Co", 170000%Z)]);
   ("MT", [("NorthWestern Corp", 380000%Z); ("Flathead Electric Coop", 60000%Z)]);
   ("NE", [("Omaha Public Power District", 390000%Z); ("Nebraska Public Power District", 250000%Z); ("Lincoln Electric System", 140000%Z)]);
   ("NV", [("NV Energy (Sierra Pacific)", 400000%Z); ("NV Energy (Nevada Power)", 1000000%Z)]);
   ("NH", [("Eversource Energy", 520000%Z); ("Liberty Utilities", 45000%Z); ("Unitil Energy Systems", 40000%Z)]);
   ("NJ", [("Public Service Elec & Gas Co", 2300000%Z); ("Jersey Central Power & Light", 1100000%Z); ("Atlantic City Electric Co", 560000%Z)]);
   ("NM", [("Public Service Co of New Mexico", 550000%Z); ("El Paso Electric Co", 110000%Z); ("Southwestern Public Service Co", 60000%Z)]);
   ("NY", [("Consolidated Edison Co", 3400000%Z); ("National Grid", 1700000%Z); ("New York State Elec & Gas Corp", 900000%Z); ("Central Hudson Gas & Elec Corp", 310000%Z); ("Rochester Gas & Electric Corp", 380000%Z); ("Long Island Power Authority", 1100000%Z)]);
   ("NC", [("Duke Energy Carolinas LLC", 2700000%Z); ("Duke Energy Progress LLC", 1700000%Z); ("Dominion Energy North Carolina", 130000%Z)]);
   ("ND", [("Montana-Dakota Utilities Co", 70000%Z); ("Otter Tail Power Co", 35000%Z); ("Xcel Energy", 40000%Z)]);
   ("OH", [("Ohio Edison Co", 1050000%Z); ("Cleveland Elec Illuminating Co", 750000%Z); ("Ohio Power Co", 1500000%Z); ("Duke Energy Ohio Inc", 720000%Z); ("Dayton Power & Light Co", 530000%Z)]);
   ("OK", [("Oklahoma Gas & Electric Co", 880000%Z); ("Public Service Co of Oklahoma", 560000%Z); ("Empire District Electric Co", 40000%Z)]);
   ("OR", [("Portland General Electric Co", 900000%Z); ("PacifiCorp", 600000%Z); ("Idaho Power Co", 30000%Z)]);
   ("PA", [("PECO Energy Co", 1600000%Z); ("PPL Electric Utilities Corp", 1400000%Z); ("Duquesne Light Co", 600000%Z); ("West Penn Power Co", 720000%Z); ("Metropolitan Edison Co", 560000%Z)]);
   ("RI", [("Rhode Island Energy", 500000%Z)]);
   ("SC", [("Duke Energy Carolinas LLC", 800000%Z); ("Duke Energy Progress LLC", 500000%Z); ("South Carolina Electric & Gas", 730000%Z)]);
   ("SD", [("Northwestern Energy", 75000%Z); ("Xcel Energy", 50000%Z); ("Otter Tail Power Co", 20000%Z)]);
   ("TN", [("Tennessee Valley Authority", 0%Z); ("Nashville Electric Service", 400000%Z); ("Memphis Light Gas & Water", 450000%Z); ("Knoxville Utilities Board", 200000%Z)]);
   ("TX", [("Oncor Electric Delivery Co", 3700000%Z); ("CenterPoint Energy", 2600000%Z); ("AEP Texas", 1100000%Z); ("Texas-New Mexico Power Co", 250000%Z); ("Austin Energy", 500000%Z); ("CPS Energy", 870000%Z)]);
   ("UT", [("Rocky Mountain Power", 950000%Z); ("City of St George", 35000%Z)]);
   ("VT", [("Green Mountain Power Corp", 270000%Z); ("Vermont Electric Coop", 33000%Z)]);
   ("VA", [("Dominion Energy Virginia", 2700000%Z); ("Appalachian Power Co", 530000%Z); ("Virginia Electric & Power Co", 0%Z)]);
   ("WA", [("Puget Sound Energy Inc", 1200000%Z); ("Avista Corp", 260000%Z); ("Seattle City Light", 450000%Z); ("Tacoma Power", 190000%Z); ("Snohomish County PUD No 1", 350000%Z)]);
   ("WV", [("Appalachian Power Co", 490000%Z); ("Monongahela Power Co", 390000%Z); ("Potomac Edison Co", 125000%Z)]);
   ("WI", [("Wisconsin Electric Power Co", 1100000%Z); ("Wisconsin Public Service Corp", 460000%Z); ("Alliant Energy", 480000%Z); ("Madison Gas & Electric Co", 160000%Z)]);
   ("WY", [("Rocky Mountain Power", 135000%Z); ("Cheyenne Light Fuel & Power Co", 42000%Z); ("Black Hills Power Inc", 25000%Z)])].

Definition EIA_STATE_AVG_RATES : list (string * Q) :=
  [("AL", (1398 # 10000)); ("AK", (2350 # 10000)); ("AZ", (1305 # 10000)); ("AR", (1187 # 10000)); ("CA", (2737 # 10000));
   ("CO", (1412 # 10000)); ("CT", (2663 # 10000)); ("DE", (1432 # 10000)); ("FL", (1398 # 10000)); ("GA", (1323 # 10000));
   ("HI", (3878 # 10000)); ("ID", (1060 # 10000)); ("IL", (1547 # 10000)); ("IN", (1362 # 10000)); ("IA", (1397 # 10000));
   ("KS", (1390 # 10000)); ("KY", (1181 # 10000)); ("LA", (1133 # 10000)); ("ME", (2245 # 10000)); ("MD", (1566 # 10000));
   ("MA", (2837 # 10000)); ("MI", (1783 # 10000)); ("MN", (1407 # 10000)); ("MS", (1267 # 10000)); ("MO", (1262 # 10000));
   ("MT", (1194 # 10000)); ("NE", (1171 # 10000)); ("NV", (1285 # 10000)); ("NH", (2361 # 10000)); ("NJ", (1792 # 10000));
   ("NM", (1382 # 10000)); ("NY", (2226 # 10000)); ("NC", (1218 # 10000)); ("ND", (1142 # 10000)); ("OH", (1413 # 10000));
   ("OK", (1153 # 10000)); ("OR", (1199 # 10000)); ("PA", (1622 # 10000)); ("RI", (2678 # 10000)); ("SC", (1315 # 10000));
   ("SD", (1275 # 10000)); ("TN", (1177 # 10000)); ("TX", (1356 # 10000)); ("UT", (1076 # 10000)); ("VT", (2074 # 10000));
   ("VA", (1297 # 10000)); ("WA", (1047 # 10000)); ("WV", (1243 # 10000)); ("WI", (1574 # 10000)); ("WY", (1109 # 10000))].

Definition NET_METERING_POLICIES : list (string * policy) :=
  [("AL", mk_policy false "avoided_cost" None);
   ("AK", mk_policy true "NEM" None);
   ("AZ", mk_policy true "net_billing" None);
   ("AR", mk_policy true "NEM" None);
   ("CA", mk_policy true "net_billing" (Some (5 # 100)));
   ("CO", mk_policy true "NEM" None);
   ("CT", mk_policy true "NEM" None);
   ("DE", mk_policy true "NEM" None);
   ("FL", mk_policy true "NEM" None);
   ("GA", mk_policy false "none" None);
   ("HI", mk_policy true "net_billing" None);
   ("ID", mk_policy true "net_billing" None);
   ("IL", mk_policy true "NEM" None);
   ("IN", mk_policy true "net_billing" None);
   ("IA", mk_policy true "NEM" None);
   ("KS", mk_policy true "NEM" None);
   ("KY", mk_policy true "NEM" None);
   ("LA", mk_policy true "net_billing" None);
   ("ME", mk_policy true "net_billing" None);
   ("MD", mk_policy true "NEM" None);
   ("MA", mk_policy true "NEM" None);
   ("MI", mk_policy true "net_billing" None);
   ("MN", mk_policy true "NEM" None);
   ("MS", mk_policy false "avoided_cost" None);
   ("MO", mk_policy true "NEM" None);
   ("MT", mk_policy true "NEM" None);
   ("NE", mk_policy true "NEM" None);
   ("NV", mk_policy true "net_billing" None);
   ("NH", mk_policy true "NEM" None);
   ("NJ", mk_policy true "NEM" None);
   ("NM", mk_policy true "NEM" None);
   ("NY", mk_policy true "net_billing" None);
   ("NC", mk_policy true "NEM" None);
   ("ND", mk_policy true "NEM" None);
   ("OH", mk_policy true "NEM" None);
   ("OK", mk_policy true "NEM" None);
   ("OR", mk_policy true "NEM" None);
   ("PA", mk_policy true "NEM" None);
   ("RI", mk_policy true "NEM" None);
   ("SC", mk_policy true "net_billing" None);
   ("SD", mk_policy true "NEM" None);
   ("TN", mk_policy false "avoided_cost" None);
   ("TX", mk_policy false "none" None);
   ("UT", mk_policy true "net_billing" None);
   ("VT", mk_policy true "NEM" None);
   ("VA", mk_policy true "NEM" None);
   ("WA", mk_policy true "NEM" None);
   ("WV", mk_policy true "NEM" None);
   ("WI", mk_policy true "NEM" None);
   ("WY", mk_policy true "NEM" None)].
(** ** Record extractor *)

Inductive rate_kind := flat | tiered | tou.

Inductive utility_kind := IOU | muni | coop.

(** One tier of one period (lines 234-239): a tier that is a dict with a
    ["rate"] adds [rate + adj] to the running total. *)
Definition tier_step (acc : Q * nat) (tier : json) : res (Q * nat) :=
  let '(total_rate, count) := acc in
  match tier with
  | JObj t =>
      match obj_get "rate" t with
      | Some rate =>
          let adj := get_default t "adj" (JInt 0) in
          match to_number rate, to_number adj with
          | Some r, Some a => Ok (total_rate + (r + a), S count)
          | _, _ => Raise TypeError
          end
      | None => Ok acc
      end
  | _ => Ok acc
  end.

Definition period_step (acc : Q * nat) (period : json) : res (Q * nat) :=
  match period with
  | JArr tiers => for_each tier_step tiers acc
  | _ => Ok acc
  end.

(** Lines 226-241; [None] stands for falling through to the fixed-charge
    estimate. *)
Definition rate_from_tiers (rate_data : obj) : res (option Q) :=
  match obj_get "energyratestructure" rate_data with
  | Some structure =>
      if truthy structure then
        n <- py_len structure ;;
        if (0 <? n)%nat then
          periods <- py_iter structure ;;
          ' (total_rate, count) <- for_each period_step periods (0, 0%nat) ;;
          if (0 <? count)%nat
          then Ok (Some (py_round (total_rate / inject_Z (Z.of_nat count)) 5))
          else Ok None
        else Ok None
      else Ok None
  | None => Ok None
  end.

(** Lines 244-249. *)
Definition rate_from_fixed_charge (rate_data : obj) : res (option Q) :=
  match obj_get "fixedmonthlycharge" rate_data with
  | Some v =>
      let fixed := if truthy v then v else JInt 0 in
      fixed_per_kwh <-
        (if truthy fixed then
           match to_number fixed with
           | Some f => Ok (f / 1000)
           | None => Raise TypeError
           end
         else Ok 0) ;;
      Ok (if Qlt_le_dec 0 fixed_per_kwh then Some (py_round fixed_per_kwh 5) else None)
  | None => Ok None
  end.

Definition extract_rate_from_structure (rate_data : obj) : res (option Q) :=
  r <- rate_from_tiers rate_data ;;
  match r with
  | Some rate => Ok (Some rate)
  | None => rate_from_fixed_charge rate_data
  end.

(** [periods_used.add(val)] on a set kept in insertion order. *)
Definition set_add (k : pykey) (s : list pykey) : list pykey :=
  if existsb (key_eqb k) s then s else s ++ [k].

Definition month_step (periods_used : list pykey) (month : json) : res (list pykey) :=
  match month with
  | JArr vals =>
      for_each (fun s val => k <- key_of val ;; Ok (set_add k s)) vals periods_used
  | _ => Ok periods_used
  end.

(** The [for period in structure] loop of lines 276-279, with its [break]. *)
Fixpoint any_tiered (periods : list json) : bool :=
  match periods with
  | [] => false
  | JArr tiers :: rest => if (1 <? List.length tiers)%nat then true else any_tiered rest
  | _ :: rest => any_tiered rest
  end.

Definition classify_rate_structure (rate_data : obj) : res rate_kind :=
  let weekday := get_default rate_data "energyweekdayschedule" (JArr []) in
  let weekend := get_default rate_data "energyweekendschedule" (JArr []) in
  has_tou <-
    (if truthy weekday then
       months <- py_iter weekday ;;
       periods_used <- for_each month_step months [] ;;
       Ok (1 <? List.length periods_used)%nat
     else Ok false) ;;
  let structure := get_default rate_data "energyratestructure" (JArr []) in
  has_tiers <-
    (if truthy structure then
       periods <- py_iter structure ;;
       Ok (any_tiered periods)
     else Ok false) ;;
  Ok (if has_tou : bool then tou else if has_tiers : bool then tiered else flat).

Definition has_demand_charges (rate_data : obj) : bool :=
  if truthy (get_default rate_data "demandratestructure" JNull) then true
  else if truthy (get_default rate_data "flatdemandstructure" JNull) then true
  else if truthy (get_default rate_data "demandmax" JNull) then true
  else false.

Definition coop_keywords : list string :=
  ["coop"; "cooperative"; "co-op"; "emc"; "ec "; "rec "; "remc"].

Definition muni_keywords : list string :=
  ["city of"; "municipal"; "dept of"; "department of"; "public util";
   "pud"; "district"; "authority"; "board"; "town of"; "village of";
   "cwl&p"; "city light"; "electric service"; "utilities board"].

Definition classify_utility_type (utility_name : string) : utility_kind :=
  let name_lower := lower utility_name in
  if existsb (fun kw => contains kw name_lower) coop_keywords then coop
  else if existsb (fun kw => contains kw name_lower) muni_keywords then muni
  else IOU.

(** ** Records of the reconciler *)

Record UtilityRecord := {
  utility_id : string;
  utility_name : string;
  state : string;
  states_served : list string;
  type : utility_kind;
  customer_count : Z;
  residential_avg_rate : Q;
  rate_structure : rate_kind;
  has_net_metering : bool;
  net_metering_type : string;
  export_rate : option Q;
  tou_available : bool;
  demand_charges : bool;
  updated_at : string
}.

(** A value of [utilities_by_eia]: the public fields and the internal
    ones, whose keys start with an underscore and are dropped by the
    clean-up of lines 484-486. *)
Record entry := {
  public : UtilityRecord;
  _startdate : json;
  _rate_name : json;
  _source : json
}.

(** [utilities_by_eia], in insertion order. *)
Definition dict := list (pykey * entry).

Fixpoint dict_get (k : pykey) (d : dict) : option entry :=
  match d with
  | [] => None
  | (k', v) :: d' => if key_eqb k k' then Some v else dict_get k d'
  end.

(** [d[k] = v]: an existing key keeps its place, a new one goes last. *)
Fixpoint dict_set (k : pykey) (v : entry) (d : dict) : dict :=
  match d with
  | [] => [(k, v)]
  | (k', v') :: d' => if key_eqb k k' then (k', v) :: d' else (k', v') :: dict_set k v d'
  end.

Definition values (d : dict) : list entry := map snd d.

Definition rate_kind_eqb (a b : rate_kind) : bool :=
  match a, b with
  | flat, flat | tiered, tiered | tou, tou => true
  | _, _ => false
  end.

(** Lines 382-383 and 434-435: [avg_rate] unless it is [None], below
    0.01 or above 1.0, then the state's EIA average. *)
Definition or_state_average (state_code : string) (avg_rate : option Q) : Q :=
  match avg_rate with
  | None => table_get EIA_STATE_AVG_RATES state_code (13 # 100)
  | Some r =>
      if Qlt_le_dec r (1 # 100) then table_get EIA_STATE_AVG_RATES state_code (13 # 100)
      else if Qlt_le_dec 1 r then table_get EIA_STATE_AVG_RATES state_code (13 # 100)
      else r
  end.

(** [NET_METERING_POLICIES.get(state_code, ...)] followed by the three
    [nm_info.get]: the geographic path names the defaults in the table
    lookup, the other two paths in the field lookups, with the same
    values. *)
Definition nm_info_for (state_code : string) : policy :=
  table_get NET_METERING_POLICIES state_code (mk_policy false "none" None).

(** [a.lower() in b.lower() or b.lower() in a.lower()]. *)
Definition names_match (a b : string) : bool :=
  contains (lower a) (lower b) || contains (lower b) (lower a).

(** Lines 366-372. *)
Definition lookup_customer_count (known_ious : list (string * Z)) (utility_name : string) : Z :=
  let customer_count := table_get known_ious utility_name 0%Z in
  if (customer_count =? 0)%Z then
    match find (fun kv => names_match (fst kv) utility_name) known_ious with
    | Some (_, count) => count
    | None => customer_count
    end
  else customer_count.

(** ** Rate client *)

(** The two kinds of query; the parameters that are the same in every
    call (sector, approval flags, detail level, limits, API key, version
    and format) are left out. *)
Inductive query :=
| GeoQuery (lat lon : Q)
| NameQuery (ratesforutility : string).

(** What one [urlopen]/[json.loads] attempt does. *)
Inductive attempt :=
| Returned (data : json)
| Failed (e : net_exn).

(** The exception classes of the [except] clause of line 215. *)
Definition caught (e : net_exn) : bool :=
  match e with
  | URLError | HTTPError | JSONDecodeError => true
  | OtherError => false
  end.

Record world := {
  attempts : nat;
  slept : list Q
}.

Definition tick (w : world) : world :=
  {| attempts := S (attempts w); slept := slept w |}.

Definition sleep (seconds : Q) (w : world) : world :=
  {| attempts := attempts w; slept := slept w ++ [seconds] |}.

Definition py_in_items (data : json) : res bool :=
  match data with
  | JObj m => Ok (match obj_get "items" m with Some _ => true | None => false end)
  | JArr l => Ok (existsb (fun x => match x with JStr s => String.eqb s "items" | _ => false end) l)
  | JStr s => Ok (contains "items" s)
  | _ => Raise TypeError
  end.

(** [data["items"]]. *)
Definition py_getitem_items (data : json) : res json :=
  match data with
  | JObj m => match obj_get "items" m with Some v => Ok v | None => Raise KeyError end
  | _ => Raise TypeError
  end.

(** [items[0]]. *)
Definition py_getitem_0 (items : json) : res json :=
  match items with
  | JArr (x :: _) => Ok x
  | JArr [] => Raise IndexError
  | JStr (String c _) => Ok (JStr (String c EmptyString))
  | JStr EmptyString => Raise IndexError
  | JObj _ => Raise KeyError
  | _ => Raise TypeError
  end.

Section Pipeline.

(** The remote service: the outcome of the [n]-th attempt of the run. *)
Variable net : nat -> query -> attempt.
(** [hash] on strings, seeded per process. *)
Variable py_hash : string -> Z.
(** [repr] of a float, a list or a dict. *)
Variable py_repr : json -> string.
(** [datetime.now().strftime("%Y-%m-%d")]. *)
Variable today : string.

Definition py_str (v : json) : string :=
  match v with
  | JNull => "None"
  | JBool true => "True"
  | JBool false => "False"
  | JInt z => str_int z
  | JStr s => s
  | JFloat _ | JArr _ | JObj _ => py_repr v
  end.

(** The loop of lines 209-220 over the remaining values of [attempt]. *)
Fixpoint api_call_loop (q : query) (retries : nat) (todo : list nat) (w : world)
  : res (json * world) :=
  match todo with
  | [] => Ok (JNull, w)
  | attempt :: todo' =>
      match net (attempts w) q with
      | Returned data => Ok (data, tick w)
      | Failed e =>
          if caught e then
            if (attempt <? retries - 1)%nat
            then api_call_loop q retries todo' (sleep (inject_Z (1 * (Z.of_nat attempt + 1))) (tick w))
            else Ok (JNull, tick w)
          else Raise (NetworkError e)
      end
  end.

Definition api_call (q : query) (retries : nat) (w : world) : res (json * world) :=
  api_call_loop q retries (seq 0 retries) w.

(** ** Reconciler *)

(** Lines 359-403: the record built from an accepted item. *)
Definition geo_entry (state_code : string) (known_ious : list (string * Z))
  (it : obj) (eia_id utility_name item_start : json) : res entry :=
  avg_rate <- extract_rate_from_structure it ;;
  rate_structure <- classify_rate_structure it ;;
  let demand := has_demand_charges it in
  match utility_name with
  | JStr utility_name =>
      let util_type := classify_utility_type utility_name in
      let customer_count := lookup_customer_count known_ious utility_name in
      let nm_info := nm_info_for state_code in
      let avg_rate := or_state_average state_code avg_rate in
      Ok {| public :=
              {| utility_id := py_str eia_id;
                 utility_name := utility_name;
                 state := state_code;
                 states_served := [state_code];
                 type := util_type;
                 customer_count := customer_count;
                 residential_avg_rate := py_round avg_rate 4;
                 rate_structure := rate_structure;
                 has_net_metering := p_has_net_metering nm_info;
                 net_metering_type := p_net_metering_type nm_info;
                 export_rate := p_export_rate nm_info;
                 tou_available := rate_kind_eqb rate_structure tou;
                 demand_charges := demand;
                 updated_at := today |};
            _startdate := item_start;
            _rate_name := get_default it "name" (JStr "");
            _source := get_default it "source" (JStr "") |}
  | _ => Raise AttributeError
  end.

(** The body of the loop over [data.get("items", [])], lines 342-403. *)
Definition geo_item (state_code : string) (known_ious : list (string * Z))
  (d : dict) (item : json) : res dict :=
  match item with
  | JObj it =>
      let eia_id := get_default it "eiaid" JNull in
      let utility_name := get_default it "utility" (JStr "Unknown") in
      if negb (truthy eia_id) then Ok d else
      k <- key_of eia_id ;;
      let existing := dict_get k d in
      let item_start := get_default it "startdate" (JInt 0) in
      newer <- match existing with
               | Some e => py_gt item_start (_startdate e)
               | None => Ok true
               end ;;
      if negb newer then Ok d else
      e <- geo_entry state_code known_ious it eia_id utility_name item_start ;;
      Ok (dict_set k e d)
  | _ => Raise AttributeError
  end.

(** One query point, lines 320-406. *)
Definition geo_point (state_code : string) (known_ious : list (string * Z))
  (dw : dict * world) (point : string * Q * Q) : res (dict * world) :=
  let '(d, w) := dw in
  let '(city_name, lat, lon) := point in
  ' (data, w1) <- api_call (GeoQuery lat lon) 3 w ;;
  if negb (truthy data) then Ok (d, w1) else
  has_items <- py_in_items data ;;
  if negb has_items then Ok (d, w1) else
  match data with
  | JObj m =>
      items <- py_iter (get_default m "items" (JArr [])) ;;
      d' <- for_each (geo_item state_code known_ious) items d ;;
      Ok (d', sleep (3 # 10) w1)
  | _ => Raise AttributeError
  end.

(** [data and "items" in data and len(data["items"]) > 0]. *)
Definition direct_has_items (data : json) : res bool :=
  if negb (truthy data) then Ok false else
  has_items <- py_in_items data ;;
  if negb has_items then Ok false else
  items <- py_getitem_items data ;;
  n <- py_len items ;;
  Ok (0 <? n)%nat.

(** The record built from the first item of a direct-name lookup,
    lines 430-457. *)
Definition direct_record (state_code : string) (iou_name : string) (customer_count : Z)
  (data : json) : res (pykey * entry) :=
  items <- py_getitem_items data ;;
  item <- py_getitem_0 items ;;
  match item with
  | JObj it =>
      let eia_id := get_default it "eiaid" (JInt (py_hash iou_name)) in
      avg_rate <- extract_rate_from_structure it ;;
      let avg_rate := or_state_average state_code avg_rate in
      let nm_info := nm_info_for state_code in
      rate_structure <- classify_rate_structure it ;;
      k <- key_of eia_id ;;
      Ok (k,
          {| public :=
               {| utility_id := py_str eia_id;
                  utility_name := iou_name;
                  state := state_code;
                  states_served := [state_code];
                  type := classify_utility_type iou_name;
                  customer_count := customer_count;
                  residential_avg_rate := py_round avg_rate 4;
                  rate_structure := rate_structure;
                  has_net_metering := p_has_net_metering nm_info;
                  net_metering_type := p_net_metering_type nm_info;
                  export_rate := p_export_rate nm_info;
                  tou_available := rate_kind_eqb rate_structure tou;
                  demand_charges := has_demand_charges it;
                  updated_at := today |};
             _startdate := get_default it "startdate" (JInt 0);
             _rate_name := get_default it "name" (JStr "");
             _source := get_default it "source" (JStr "") |})
  | _ => Raise AttributeError
  end.

(** The record synthesized from reference data, lines 460-479. *)
Definition synthesized (state_code : string) (iou_name : string) (customer_count : Z) : entry :=
  let nm_info := nm_info_for state_code in
  {| public :=
       {| utility_id := py_str (JInt (py_hash iou_name));
          utility_name := iou_name;
          state := state_code;
          states_served := [state_code];
          type := classify_utility_type iou_name;
          customer_count := customer_count;
          residential_avg_rate := table_get EIA_STATE_AVG_RATES state_code (13 # 100);
          rate_structure := tiered;
          has_net_metering := p_has_net_metering nm_info;
          net_metering_type := p_net_metering_type nm_info;
          export_rate := p_export_rate nm_info;
          tou_available := false;
          demand_charges := false;
          updated_at := today |};
     _startdate := JInt 0;
     _rate_name := JStr "Estimated";
     _source := JStr "EIA-861" |}.

Definition found_in (iou_name : string) (d : dict) : bool :=
  existsb (fun u => contains (lower iou_name) (lower (utility_name (public u)))
                    || contains (lower (utility_name (public u))) (lower iou_name))
          (values d).

(** One known utility, lines 409-480. *)
Definition backfill_one (state_code : string) (dw : dict * world) (kv : string * Z)
  : res (dict * world) :=
  let '(d, w) := dw in
  let '(iou_name, customer_count) := kv in
  if (customer_count =? 0)%Z then Ok (d, w) else
  if found_in iou_name d then Ok (d, w) else
  ' (data, w1) <- api_call (NameQuery iou_name) 3 w ;;
  has_items <- direct_has_items data ;;
  if has_items : bool then
    ' (k, e) <- direct_record state_code iou_name customer_count data ;;
    Ok (dict_set k e d, sleep (3 # 10) w1)
  else
    Ok (dict_set (KNum (inject_Z (py_hash iou_name)))
                 (synthesized state_code iou_name customer_count) d,
        sleep (3 # 10) w1).

(** [results.sort(key=customer_count, reverse=True)]: stable, so records
    with equal counts keep their order. *)
Fixpoint insert_by_count (x : UtilityRecord) (l : list UtilityRecord) : list UtilityRecord :=
  match l with
  | [] => [x]
  | y :: l' =>
      if (customer_count x <? customer_count y)%Z
      then y :: insert_by_count x l'
      else x :: l
  end.

Definition sort_by_count (l : list UtilityRecord) : list UtilityRecord :=
  fold_right insert_by_count [] l.

Definition fetch_utilities_for_state (state_code : string) (w : world)
  : res (list UtilityRecord * world) :=
  let query_points := table_get STATE_QUERY_POINTS state_code [] in
  let known_ious := table_get MAJOR_IOUS state_code [] in
  let utilities_by_eia : dict := [] in
  ' (utilities_by_eia, w1) <-
     for_each (geo_point state_code known_ious) query_points (utilities_by_eia, w) ;;
  ' (utilities_by_eia, w2) <-
     for_each (backfill_one state_code) known_ious (utilities_by_eia, w1) ;;
  let results := map public (values utilities_by_eia) in
  Ok (sort_by_count results, w2).

(** ** Aggregator *)

Record StateData := {
  sd_state : string;
  utility_count : nat;
  avg_residential_rate : Q;
  eia_state_avg_rate : Q;
  net_metering : option policy;
  sd_utilities : list UtilityRecord
}.

Record StateSummary := {
  ss_utility_count : nat;
  avg_rate : Q;
  eia_avg_rate : Q
}.

Record NationalData := {
  total_utilities : nat;
  states_covered : nat;
  national_avg_rate : Q;
  state_summary : list (string * StateSummary);
  utilities : list UtilityRecord;
  source : string
}.

(** [sum(xs)]. *)
Definition py_sum (xs : list Q) : Q := fold_left Qplus xs 0.

Fixpoint insert_string (s : string) (l : list string) : list string :=
  match l with
  | [] => [s]
  | t :: l' => if String.leb s t then s :: l else t :: insert_string s l'
  end.

(** [sorted(keys)]. *)
Definition sorted (l : list string) : list string := fold_right insert_string [] l.

(** Lines 512-522. *)
Definition state_data (state_code : string) (utilities : list UtilityRecord) : StateData :=
  {| sd_state := state_code;
     utility_count := List.length utilities;
     avg_residential_rate :=
       py_round (py_sum (map residential_avg_rate utilities)
                 / inject_Z (Z.of_nat (Nat.max (List.length utilities) 1))) 4;
     eia_state_avg_rate := table_get EIA_STATE_AVG_RATES state_code 0;
     net_metering := assoc state_code NET_METERING_POLICIES;
     sd_utilities := utilities |}.

(** Lines 538-548. *)
Definition national_data (all_utilities : list UtilityRecord)
  (state_summary : list (string * StateSummary)) : NationalData :=
  {| total_utilities := List.length all_utilities;
     states_covered := List.length state_summary;
     national_avg_rate :=
       py_round (py_sum (map snd EIA_STATE_AVG_RATES)
                 / inject_Z (Z.of_nat (List.length EIA_STATE_AVG_RATES))) 4;
     state_summary := state_summary;
     utilities := all_utilities;
     source := "OpenEI USURDB + EIA-861" |}.

(** The accumulator of the loop of [main]: the state files written so
    far, [all_utilities], [state_summary] and the world. *)
Definition main_state : Type :=
  list StateData * list UtilityRecord * list (string * StateSummary) * world.

Definition main_step (acc : main_state) (state_code : string) : res main_state :=
  let '(files, all_utilities, state_summary, w) := acc in
  ' (utilities, w') <- fetch_utilities_for_state state_code w ;;
  let sd := state_data state_code utilities in
  Ok ((files ++ [sd])%list,
      (all_utilities ++ utilities)%list,
      (state_summary ++ [(state_code,
                         {| ss_utility_count := List.length utilities;
                            avg_rate := avg_residential_rate sd;
                            eia_avg_rate := table_get EIA_STATE_AVG_RATES state_code 0 |})])%list,
      w').

(** [main]: the state files and the national file it writes. *)
Definition main (api_key : string) (w : world) : res (list StateData * NationalData * world) :=
  if String.eqb api_key "" then Raise (SystemExit 1) else
  let states := sorted (map fst STATE_QUERY_POINTS) in
  ' (files, all_utilities, state_summary, w') <-
     for_each main_step states ([], [], [], w) ;;
  Ok (files, national_data all_utilities state_summary, w').

End Pipeline.

(** ** Notions used in the statements *)





(** The flat arithmetic mean. *)
Definition mean (xs : list Q) : Q := py_sum xs / inject_Z (Z.of_nat (List.length xs)).

(** The period indices of a weekday schedule, month after month. *)
Definition schedule_entries (weekday : json) : list json :=
  match weekday with
  | JArr months => flat_map (fun month => match month with JArr vals => vals | _ => [] end) months
  | _ => []
  end.

Definition scalar (v : json) : Prop :=
  match v with
  | JArr _ | JObj _ => False
  | _ => True
  end.

(** A schedule that is absent, null or an array whose entries are scalars. *)
Definition well_typed_schedule (weekday : json) : Prop :=
  match weekday with
  | JNull => True
  | JArr _ => Forall scalar (schedule_entries weekday)
  | _ => False
  end.

(** A rate matrix that is absent, null or an array. *)
Definition well_typed_structure (structure : json) : Prop :=
  match structure with
  | JNull | JArr _ => True
  | _ => False
  end.

(** More than one distinct period index. *)
Definition two_distinct_periods (weekday : json) : Prop :=
  exists v1 v2 k1 k2,
    In v1 (schedule_entries weekday) /\ In v2 (schedule_entries weekday) /\
    key_of v1 = Ok k1 /\ key_of v2 = Ok k2 /\ k1 <> k2.

(** Some rate period has more than one tier. *)
Definition some_period_tiered (structure : json) : Prop :=
  exists periods tiers,
    structure = JArr periods /\ In (JArr tiers) periods /\ (1 < List.length tiers)%nat.

(** The keys of the hashable values of a list. *)
Definition keys_of (vs : list json) : list pykey :=
  flat_map (fun v => match key_of v with Ok k => [k] | Raise _ => [] end) vs.

(** [periods_used] after adding [keys] to the set [s]. *)
Definition add_all (keys s : list pykey) : list pykey :=
  fold_left (fun s k => set_add k s) keys s.

(** The number of seconds waited after the failed attempts [1 .. n]. *)
Definition backoff (n : nat) : list Q :=
  map (fun attempt_index => inject_Z (Z.of_nat attempt_index)) (seq 1 n).

(** The step taken on an item that is accepted: its record is built and
    stored under the key [k]. *)
Definition accept (py_repr : json -> string) (today state_code : string)
  (known_ious : list (string * Z)) (it : obj) (k : pykey) (d : dict) : res dict :=
  e <- geo_entry py_repr today state_code known_ious it
         (get_default it "eiaid" JNull)
         (get_default it "utility" (JStr "Unknown"))
         (get_default it "startdate" (JInt 0)) ;;
  Ok (dict_set k e d).

(** An item of the [items] of some response to a geographic query. *)
Definition geo_responded (net : nat -> query -> attempt) (item : json) : Prop :=
  exists i lat lon m items,
    net i (GeoQuery lat lon) = Returned (JObj m)
    /\ py_iter (get_default m "items" (JArr [])) = Ok items
    /\ In item items.

(** A response to the direct-name query for [name]. *)
Definition direct_responded (net : nat -> query -> attempt) (name : string) (data : json)
  : Prop :=
  exists i, net i (NameQuery name) = Returned data.

(** An [eiaid] that is absent, null or an integer. *)
Definition integer_id (o : option json) : Prop :=
  match o with
  | None | Some JNull | Some (JInt _) => True
  | _ => False
  end.

(** A response all of whose items carry integer ids. *)
Definition integer_ids (data : json) : Prop :=
  forall m items it,
    data = JObj m ->
    py_iter (get_default m "items" (JArr [])) = Ok items ->
    In (JObj it) items ->
    integer_id (obj_get "eiaid" it).

(** The [utility_id] that goes with a key when ids are integers. *)
Definition key_id (k : pykey) (id : string) : Prop :=
  (exists z, k = KNum (inject_Z z) /\ id = str_int z) \/ (k = KNone /\ id = "None").

(** The invariant of [utilities_by_eia] when ids are integers: keys are
    pairwise distinct and every record's [utility_id] renders its key. *)
Definition keyed_by_id (d : dict) : Prop :=
  NoDup (map fst d) /\ forall k e, In (k, e) d -> key_id k (utility_id (public e)).

(** No name of the list is contained in another one, ignoring case. *)
Fixpoint distinct_names (names : list string) : bool :=
  match names with
  | [] => true
  | a :: rest => forallb (fun b => negb (names_match a b)) rest && distinct_names rest
  end.




(** Two items that differ at most in the field [k]. *)
Definition differ_only_at (k : string) (a b : obj) : Prop :=
  forall k', k' <> k -> obj_get k' a = obj_get k' b.

Definition in_plausible_range (r : Q) : Prop := 1 # 100 <= r /\ r <= 1.

(** An item whose [eiaid] is missing, null, zero or empty. *)
Definition no_usable_id (it : obj) : Prop :=
  match obj_get "eiaid" it with
  | None => True
  | Some v => truthy v = false
  end.


(** [kw] occurs in the lower-cased [name]. *)
Definition has_keyword (keywords : list string) (name : string) : Prop :=
  exists kw before after,
    In kw keywords /\ lower name = (before ++ kw ++ after)%string.


(** The fields of a record that are computed from other fields. *)
Definition derived_fields_agree (r : UtilityRecord) : Prop :=
  type r = classify_utility_type (utility_name r)
  /\ (tou_available r = true <-> rate_structure r = tou).



(** The order of a state's list: larger customer counts first. *)
Definition by_count_descending (a b : UtilityRecord) : Prop :=
  (customer_count b <= customer_count a)%Z.

Definition with_count (c : Z) (r : UtilityRecord) : bool := (customer_count r =? c)%Z.

(** The known utilities that can be looked up by name: those with a
    nonzero customer count. *)
Definition lookup_candidates (known_ious : list (string * Z)) : list (string * Z) :=
  filter (fun kv => negb (snd kv =? 0)%Z) known_ious.

(** A service on which [q] fails twice before it is answered. *)
Definition net_third_time (data : json) : nat -> query -> attempt :=
  fun n _ => if (n <? 2)%nat then Failed HTTPError else Returned data.

(** An item the loop can weigh against the stored records: an object
    whose [eiaid], when it is not skipped, is a scalar and whose start
    date is then a number. *)
Definition datable (item : json) : Prop :=
  match item with
  | JObj it =>
      truthy (get_default it "eiaid" JNull) = true ->
      (exists k, key_of (get_default it "eiaid" JNull) = Ok k)
      /\ exists s, to_number (get_default it "startdate" (JInt 0)) = Some s
  | _ => False
  end.

(** A dictionary all of whose records carry a numeric start date. *)
Definition dated (d : dict) : Prop :=
  Forall (fun e => exists s, to_number (_startdate e) = Some s) (values d).

(** The record stored under [k] starts at [s] or later. *)
Definition at_least_as_new (d : dict) (k : pykey) (s : Q) : Prop :=
  exists e s', dict_get k d = Some e /\ to_number (_startdate e) = Some s' /\ s <= s'.

(** The item [it] has a usable [eiaid] with key [k] and starts at [s]. *)
Definition item_key_date (it : obj) (k : pykey) (s : Q) : Prop :=
  truthy (get_default it "eiaid" JNull) = true
  /\ key_of (get_default it "eiaid" JNull) = Ok k
  /\ to_number (get_default it "startdate" (JInt 0)) = Some s.

(** The entry of [state_summary] that goes with a state file. *)
Definition summary_of (sd : StateData) : string * StateSummary :=
  (sd_state sd,
   {| ss_utility_count := utility_count sd;
      avg_rate := avg_residential_rate sd;
      eia_avg_rate := eia_state_avg_rate sd |}).

(** Strictly ascending, neighbour by neighbour. *)
Fixpoint ascending (l : list string) : bool :=
  match l with
  | a :: (b :: _) as rest => String.ltb a b && ascending rest
  | _ => true
  end.

(** The dictionary that holds, for each known utility with a nonzero
    count, the record synthesized from reference data. *)
Definition synthesized_entries (py_hash : string -> Z) (py_repr : json -> string)
  (today state_code : string) (known_ious : list (string * Z)) : dict :=
  map (fun kv => (KNum (inject_Z (py_hash (fst kv))),
                  synthesized py_hash py_repr today state_code (fst kv) (snd kv)))
      (lookup_candidates known_ious).

(** The fields the record extractor reads. *)
Definition extractor_fields : list string :=
  ["energyratestructure"; "fixedmonthlycharge"; "energyweekdayschedule";
   "demandratestructure"; "flatdemandstructure"; "demandmax"].

(** ** Concrete services and inputs used in the examples *)

Definition world0 : world := {| attempts := 0; slept := [] |}.

(** A service that is down: every attempt ends in [URLError]. *)
Definition net_down : nat -> query -> attempt := fun _ _ => Failed URLError.

(** A service that answers every geographic query with [data] and fails
    every direct-name query. *)
Definition net_geo (data : json) : nat -> query -> attempt :=
  fun _ q =>
    match q with
    | GeoQuery _ _ => Returned data
    | NameQuery _ => Failed URLError
    end.

(** A service that answers every direct-name query with [data] and fails
    every geographic query. *)
Definition net_direct (data : json) : nat -> query -> attempt :=
  fun _ q =>
    match q with
    | GeoQuery _ _ => Failed URLError
    | NameQuery _ => Returned data
    end.

Definition hash0 : string -> Z := fun s => Z.of_nat (String.length s).

Definition repr0 : json -> string := fun _ => "?".

Definition rate_item (rate : Q) : obj :=
  [("energyratestructure", JArr [JArr [JObj [("rate", JFloat rate)]]])].

Definition two_tier_item : obj :=
  [("energyratestructure",
    JArr [JArr [JObj [("rate", JFloat (10 # 100))]; JObj [("rate", JFloat (12 # 100))]]])].



Definition tou_item : obj :=
  [("energyweekdayschedule", JArr [JArr [JInt 0; JInt 0; JInt 1]; JArr [JInt 0]]);
   ("energyweekendschedule", JArr [JArr [JInt 0]]);
   ("energyratestructure", JArr [JArr [JObj [("rate", JFloat (1 # 10))]];
                                 JArr [JObj [("rate", JFloat (2 # 10))]]])].

Definition item_100 : obj :=
  [("eiaid", JInt 195); ("utility", JStr "Alabama Power Co"); ("name", JStr "old");
   ("startdate", JInt 100)].

Definition item_200 : obj :=
  [("eiaid", JInt 195); ("utility", JStr "Alabama Power Co"); ("name", JStr "new");
   ("startdate", JInt 200)].

Definition item_200_again : obj :=
  [("eiaid", JInt 195); ("utility", JStr "Alabama Power Co"); ("name", JStr "duplicate");
   ("startdate", JInt 200)].

(** The [_rate_name] of the records of a dictionary. *)
Definition rate_names (r : res dict) : list json :=
  match r with
  | Ok d => map _rate_name (values d)
  | Raise _ => []
  end.

(** A geographic response with one utility whose only tier costs exactly
    one cent per kWh. *)
Definition one_cent_response : json :=
  JObj [("items",
         JArr [JObj (("eiaid", JInt 40229) :: ("utility", JStr "Town of Smyrna")
                     :: rate_item (1 # 100))])].

(** A geographic response in which one utility reports its id as the
    number 5335 and another as the string "5335". *)
Definition mixed_ids_response : json :=
  JObj [("items",
         JArr [JObj [("eiaid", JInt 5335); ("utility", JStr "City of Dover")];
               JObj [("eiaid", JStr "5335"); ("utility", JStr "Dover Public Utilities")]])].

(** A service where the two names under which Indiana Michigan Power is
    listed resolve to one utility, EIA id 9324; everything else fails. *)
Definition net_indiana_michigan : nat -> query -> attempt :=
  fun _ q =>
    match q with
    | GeoQuery _ _ => Failed URLError
    | NameQuery name =>
        if String.eqb name "Indiana Michigan Power Co"
           || String.eqb name "Indiana & Michigan Electric"
        then Returned (JObj [("items", JArr [JObj [("eiaid", JInt 9324)]])])
        else Failed URLError
    end.

(** * Properties *)

(** ** The error monad and the loops *)

Lemma bind_ok {A B : Type} (c : res A) (k : A -> res B) (b : B) :
  bind c k = Ok b -> exists a, c = Ok a /\ k a = Ok b.
Proof.
  destruct c as [a | e]; simpl; intros H.
  - exists a; split; [reflexivity | exact H].
  - discriminate H.
Qed.

Lemma for_each_app {A S : Type} (step : S -> A -> res S) (xs ys : list A) (acc : S) :
  for_each step (xs ++ ys) acc = (acc' <- for_each step xs acc ;; for_each step ys acc').
Proof.
  revert acc; induction xs as [| x xs IH]; intros acc; simpl.
  - reflexivity.
  - destruct (step acc x) as [acc' | e]; simpl; [apply IH | reflexivity].
Qed.

Lemma for_each_invariant {A S : Type} (P : S -> Prop) (step : S -> A -> res S) (xs : list A) :
  (forall s x s', In x xs -> P s -> step s x = Ok s' -> P s') ->
  forall acc acc', P acc -> for_each step xs acc = Ok acc' -> P acc'.
Proof.
  induction xs as [| x xs IH]; intros Hstep acc acc' Hacc Hrun; simpl in Hrun.
  - injection Hrun as <-; exact Hacc.
  - apply bind_ok in Hrun as (s & Hs & Hrest).
    apply (IH (fun s0 x0 s' Hin => Hstep s0 x0 s' (or_intror Hin)) s acc').
    + apply (Hstep acc x s); [left; reflexivity | exact Hacc | exact Hs].
    + exact Hrest.
Qed.

(** ** Record extractor: the rate *)







(** ** Record extractor: the classification *)

Lemma key_eqb_eq (a b : pykey) : key_eqb a b = true <-> a = b.
Proof.
  destruct a as [| [pn pd] | s], b as [| [qn qd] | t]; simpl;
    try (split; [discriminate | discriminate]); try (split; reflexivity).
  - rewrite andb_true_iff, Z.eqb_eq, Pos.eqb_eq. split.
    + intros [-> ->]; reflexivity.
    + intros H; injection H as -> ->; split; reflexivity.
  - rewrite String.eqb_eq. split; [intros -> | intros H; injection H as ->]; reflexivity.
Qed.

Lemma set_add_in (k : pykey) (s : list pykey) (x : pykey) :
  In x (set_add k s) <-> x = k \/ In x s.
Proof.
  unfold set_add. destruct (existsb (key_eqb k) s) eqn:E.
  - split; [intros H; right; exact H |].
    intros [-> | H]; [| exact H].
    apply existsb_exists in E as (y & Hy & Heq). apply key_eqb_eq in Heq as ->. exact Hy.
  - rewrite in_app_iff. simpl. split.
    + intros [H | [<- | []]]; [right; exact H | left; reflexivity].
    + intros [-> | H]; [right; left; reflexivity | left; exact H].
Qed.

Lemma set_add_nodup (k : pykey) (s : list pykey) : NoDup s -> NoDup (set_add k s).
Proof.
  intros Hs. unfold set_add. destruct (existsb (key_eqb k) s) eqn:E; [exact Hs |].
  apply NoDup_app; [exact Hs | repeat constructor; intros [] |].
  intros x Hx [E' | []]. subst x.
  assert (H : existsb (key_eqb k) s = true).
  { apply existsb_exists. exists k. split; [exact Hx | apply key_eqb_eq; reflexivity]. }
  rewrite H in E. discriminate E.
Qed.

Lemma scalar_key (v : json) : scalar v -> exists k, key_of v = Ok k.
Proof.
  destruct v; simpl; intros H; try contradiction; eexists; reflexivity.
Qed.

Lemma keys_of_in (vs : list json) (k : pykey) :
  In k (keys_of vs) <-> exists v, In v vs /\ key_of v = Ok k.
Proof.
  unfold keys_of. rewrite in_flat_map. split.
  - intros (v & Hv & Hk). exists v. split; [exact Hv |].
    destruct (key_of v) as [k' |]; simpl in Hk; [| contradiction].
    destruct Hk as [-> | []]. reflexivity.
  - intros (v & Hv & Hk). exists v. split; [exact Hv |]. rewrite Hk. left; reflexivity.
Qed.

Lemma add_all_spec (keys : list pykey) :
  forall s, NoDup s ->
    NoDup (add_all keys s) /\ (forall x, In x (add_all keys s) <-> In x s \/ In x keys).
Proof.
  induction keys as [| k keys IH]; intros s Hs; simpl.
  - split; [exact Hs |]. intros x; split; [intros H; left; exact H | intros [H | []]; exact H].
  - destruct (IH (set_add k s) (set_add_nodup k s Hs)) as [Hnd Hin]. split; [exact Hnd |].
    intros x. rewrite Hin, set_add_in. simpl. intuition congruence.
Qed.

Lemma values_loop (vals : list json) :
  Forall scalar vals ->
  forall s,
    for_each (fun s val => k <- key_of val ;; Ok (set_add k s)) vals s =
    Ok (add_all (keys_of vals) s).
Proof.
  induction 1 as [| v vals Hv _ IH]; intros s; [reflexivity |].
  cbn [for_each]. destruct (scalar_key v Hv) as [k Hk].
  unfold keys_of in *. cbn [flat_map]. rewrite Hk. cbn [bind app]. apply IH.
Qed.

Lemma months_loop (months : list json) :
  Forall scalar (schedule_entries (JArr months)) ->
  forall s,
    for_each month_step months s = Ok (add_all (keys_of (schedule_entries (JArr months))) s).
Proof.
  induction months as [| month months IH]; intros Hsc s; [reflexivity |].
  cbn [schedule_entries flat_map] in *. apply Forall_app in Hsc as [Hm Hrest].
  cbn [for_each]. unfold keys_of. rewrite flat_map_app. unfold add_all.
  rewrite fold_left_app.
  destruct month as [| b | z | q | t | vals | m]; cbn [month_step bind]; try (apply IH; exact Hrest).
  rewrite (values_loop vals Hm). cbn [bind]. apply IH. exact Hrest.
Qed.

Lemma more_than_one_iff (s : list pykey) :
  NoDup s ->
  ((1 <? List.length s)%nat = true <-> exists a b, In a s /\ In b s /\ a <> b).
Proof.
  intros Hnd. split.
  - destruct s as [| a [| b s']]; simpl; try discriminate. intros _.
    exists a, b. split; [left; reflexivity | split; [right; left; reflexivity |]].
    intros ->. inversion Hnd as [| ? ? Hnotin _]. apply Hnotin. left; reflexivity.
  - intros (a & b & Ha & Hb & Hab).
    destruct s as [| x [| y s']]; simpl in *; try reflexivity; try contradiction.
    destruct Ha as [<- | []], Hb as [<- | []]. contradiction Hab; reflexivity.
Qed.

Lemma any_tiered_iff (periods : list json) :
  any_tiered periods = true <->
  exists tiers, In (JArr tiers) periods /\ (1 < List.length tiers)%nat.
Proof.
  induction periods as [| p periods IH].
  - simpl. split; [discriminate | intros (? & [] & _)].
  - assert (Hskip : (forall tiers, p <> JArr tiers) ->
              (any_tiered periods = true <->
               exists tiers, In (JArr tiers) (p :: periods) /\ (1 < List.length tiers)%nat)).
    { intros Hp. rewrite IH. split.
      - intros (tiers & Hin & Hlen). exists tiers. split; [right; exact Hin | exact Hlen].
      - intros (tiers & [E | Hin] & Hlen); [contradiction (Hp tiers E) |].
        exists tiers. split; assumption. }
    destruct p as [| b | z | q | s | tiers | m]; cbn [any_tiered];
      try (apply Hskip; intros ? ?; discriminate).
    destruct (1 <? List.length tiers)%nat eqn:E.
    + split; [intros _ | reflexivity]. exists tiers. split; [left; reflexivity |].
      apply Nat.ltb_lt. exact E.
    + rewrite IH. apply Nat.ltb_ge in E. split.
      * intros (t & Hin & Hlen). exists t. split; [right; exact Hin | exact Hlen].
      * intros (t & [Eq | Hin] & Hlen).
        -- injection Eq as <-. lia.
        -- exists t. split; assumption.
Qed.

Lemma has_tou_decides (weekday : json) :
  well_typed_schedule weekday ->
  exists has_tou : bool,
    (if truthy weekday then
       months <- py_iter weekday ;;
       periods_used <- for_each month_step months [] ;;
       Ok (1 <? List.length periods_used)%nat
     else Ok false) = Ok has_tou
    /\ (has_tou = true <-> two_distinct_periods weekday).
Proof.
  assert (Hnone : forall w, schedule_entries w = [] -> ~ two_distinct_periods w).
  { intros w Hw (v1 & _ & _ & _ & Hin & _). rewrite Hw in Hin. exact Hin. }
  destruct weekday as [| b | z | q | s | months | m]; cbn [well_typed_schedule];
    intros Hwt; try contradiction.
  - exists false. split; [reflexivity |].
    split; [discriminate | intros H; contradiction (Hnone JNull eq_refl H)].
  - destruct months as [| month months].
    + exists false. split; [reflexivity |].
      split; [discriminate | intros H; contradiction (Hnone (JArr []) eq_refl H)].
    + cbn [truthy py_iter bind]. rewrite (months_loop (month :: months) Hwt). cbn [bind].
      eexists. split; [reflexivity |].
      destruct (add_all_spec (keys_of (schedule_entries (JArr (month :: months))))
                             [] (NoDup_nil pykey)) as [Hnd Hin].
      rewrite (more_than_one_iff _ Hnd). unfold two_distinct_periods. split.
      * intros (a & b & Ha & Hb & Hab).
        apply Hin in Ha as [[] | Ha]. apply Hin in Hb as [[] | Hb].
        apply keys_of_in in Ha as (v1 & Hv1 & Hk1). apply keys_of_in in Hb as (v2 & Hv2 & Hk2).
        exists v1, v2, a, b. repeat split; assumption.
      * intros (v1 & v2 & k1 & k2 & Hv1 & Hv2 & Hk1 & Hk2 & Hne).
        exists k1, k2. repeat split; [| | exact Hne].
        -- apply Hin. right. apply keys_of_in. exists v1. split; assumption.
        -- apply Hin. right. apply keys_of_in. exists v2. split; assumption.
Qed.

Lemma has_tiers_decides (structure : json) :
  well_typed_structure structure ->
  exists has_tiers : bool,
    (if truthy structure then
       periods <- py_iter structure ;;
       Ok (any_tiered periods)
     else Ok false) = Ok has_tiers
    /\ (has_tiers = true <-> some_period_tiered structure).
Proof.
  destruct structure as [| b | z | q | s | periods | m]; cbn [well_typed_structure];
    intros Hwt; try contradiction.
  - exists false. split; [reflexivity |].
    split; [discriminate | intros (? & ? & E & _); discriminate E].
  - destruct periods as [| p periods].
    + exists false. split; [reflexivity |].
      split; [discriminate | intros (ps & ? & E & Hin & _)].
      injection E as <-. contradiction Hin.
    + cbn [truthy py_iter bind]. eexists. split; [reflexivity |].
      rewrite any_tiered_iff. unfold some_period_tiered. split.
      * intros (tiers & Hin & Hlen). exists (p :: periods), tiers. repeat split; assumption.
      * intros (ps & tiers & E & Hin & Hlen). injection E as <-. exists tiers. split; assumption.
Qed.

Lemma values_loop_ok (vals : list json) :
  forall s s',
    for_each (fun s val => k <- key_of val ;; Ok (set_add k s)) vals s = Ok s' ->
    s' = add_all (keys_of vals) s.
Proof.
  induction vals as [| v vals IH]; intros s s' H.
  - injection H as <-. reflexivity.
  - cbn [for_each] in H. apply bind_ok in H as (s1 & Hs1 & H).
    apply bind_ok in Hs1 as (k & Hk & Hs1). injection Hs1 as <-.
    unfold keys_of. cbn [flat_map]. rewrite Hk. apply (IH _ _ H).
Qed.

Lemma months_loop_ok (months : list json) :
  forall s s',
    for_each month_step months s = Ok s' ->
    s' = add_all (keys_of (schedule_entries (JArr months))) s.
Proof.
  induction months as [| month months IH]; intros s s' H.
  - injection H as <-. reflexivity.
  - cbn [for_each] in H. apply bind_ok in H as (s1 & Hs1 & H).
    cbn [schedule_entries flat_map]. unfold keys_of. rewrite flat_map_app.
    unfold add_all. rewrite fold_left_app.
    destruct month as [| b | z | q | t | vals | m]; cbn [month_step] in Hs1;
      try (injection Hs1 as <-; apply (IH _ _ H)).
    apply values_loop_ok in Hs1 as ->. apply (IH _ _ H).
Qed.

Lemma no_array_entries (months : list json) :
  (forall month, In month months -> forall vals, month <> JArr vals) ->
  schedule_entries (JArr months) = [].
Proof.
  induction months as [| month months IH]; intros H; [reflexivity |].
  cbn [schedule_entries flat_map].
  destruct month as [| | | | | vals |];
    try (apply IH; intros mo Hin; apply H; right; exact Hin).
  contradiction (H (JArr vals) (or_introl eq_refl) vals eq_refl).
Qed.

Lemma no_array_tiered (periods : list json) :
  (forall period, In period periods -> forall tiers, period <> JArr tiers) ->
  any_tiered periods = false.
Proof.
  induction periods as [| period periods IH]; intros H; [reflexivity |].
  destruct period as [| | | | | tiers |]; cbn [any_tiered];
    try (apply IH; intros pe Hin; apply H; right; exact Hin).
  contradiction (H (JArr tiers) (or_introl eq_refl) tiers eq_refl).
Qed.

Lemma chars_no_array (s : string) (v : json) : In v (chars s) -> forall l, v <> JArr l.
Proof.
  unfold chars. intros Hin l. apply in_map_iff in Hin as (c & <- & _). discriminate.
Qed.

Lemma keys_no_array (m : obj) (v : json) :
  In v (map (fun kv => JStr (fst kv)) m) -> forall l, v <> JArr l.
Proof. intros Hin l. apply in_map_iff in Hin as (kv & <- & _). discriminate. Qed.

Lemma distinct_in_keys (entries : list json) :
  (1 <? List.length (add_all (keys_of entries) []))%nat = true <->
  exists v1 v2 k1 k2,
    In v1 entries /\ In v2 entries /\ key_of v1 = Ok k1 /\ key_of v2 = Ok k2 /\ k1 <> k2.
Proof.
  destruct (add_all_spec (keys_of entries) [] (NoDup_nil pykey)) as [Hnd Hin].
  rewrite (more_than_one_iff _ Hnd). split.
  - intros (a & b & Ha & Hb & Hab).
    apply Hin in Ha as [[] | Ha]. apply Hin in Hb as [[] | Hb].
    apply keys_of_in in Ha as (v1 & Hv1 & Hk1). apply keys_of_in in Hb as (v2 & Hv2 & Hk2).
    exists v1, v2, a, b. repeat split; assumption.
  - intros (v1 & v2 & k1 & k2 & Hv1 & Hv2 & Hk1 & Hk2 & Hne).
    exists k1, k2. repeat split; [| | exact Hne].
    + apply Hin. right. apply keys_of_in. exists v1. split; assumption.
    + apply Hin. right. apply keys_of_in. exists v2. split; assumption.
Qed.

Lemma has_tou_sound (weekday : json) (has_tou : bool) :
  (if truthy weekday then
     months <- py_iter weekday ;;
     periods_used <- for_each month_step months [] ;;
     Ok (1 <? List.length periods_used)%nat
   else Ok false) = Ok has_tou ->
  (has_tou = true <-> two_distinct_periods weekday).
Proof.
  assert (Hnone : forall w, schedule_entries w = [] -> ~ two_distinct_periods w).
  { intros w Hw (v1 & _ & _ & _ & Hin & _). rewrite Hw in Hin. exact Hin. }
  assert (Hloop : forall months w,
             schedule_entries w = [] -> schedule_entries (JArr months) = [] ->
             (periods_used <- for_each month_step months [] ;;
              Ok (1 <? List.length periods_used)%nat) = Ok has_tou ->
             (has_tou = true <-> two_distinct_periods w)).
  { intros months w Hw Hmonths H. apply bind_ok in H as (used & Hused & H).
    apply months_loop_ok in Hused. rewrite Hmonths in Hused. subst used.
    injection H as <-. split; [discriminate | intros H; contradiction (Hnone w Hw H)]. }
  destruct (truthy weekday) eqn:Htruthy.
  - destruct weekday as [| b | z | q | s | months | m]; cbn [py_iter bind];
      try discriminate.
    + apply (Hloop (chars s) (JStr s) eq_refl).
      apply no_array_entries. apply chars_no_array.
    + intros H. apply bind_ok in H as (used & Hused & H).
      apply months_loop_ok in Hused as ->. injection H as <-.
      apply distinct_in_keys.
    + apply (Hloop _ (JObj m) eq_refl). apply no_array_entries. apply keys_no_array.
  - intros H; injection H as <-. split; [discriminate |].
    intros (v1 & _ & _ & _ & Hin & _).
    destruct weekday as [| | | | | months |]; try contradiction Hin.
    destruct months; [contradiction Hin | discriminate Htruthy].
Qed.

Lemma has_tiers_sound (structure : json) (has_tiers : bool) :
  (if truthy structure then
     periods <- py_iter structure ;;
     Ok (any_tiered periods)
   else Ok false) = Ok has_tiers ->
  (has_tiers = true <-> some_period_tiered structure).
Proof.
  destruct (truthy structure) eqn:Htruthy.
  - destruct structure as [| b | z | q | s | periods | m]; cbn [py_iter bind];
      try discriminate; intros H; injection H as <-.
    + rewrite (no_array_tiered _ (chars_no_array s)).
      split; [discriminate | intros (? & ? & E & _); discriminate E].
    + rewrite any_tiered_iff. unfold some_period_tiered. split.
      * intros (tiers & Hin & Hlen). exists periods, tiers. repeat split; assumption.
      * intros (ps & tiers & E & Hin & Hlen). injection E as <-. exists tiers.
        split; assumption.
    + rewrite (no_array_tiered _ (keys_no_array m)).
      split; [discriminate | intros (? & ? & E & _); discriminate E].
  - intros H; injection H as <-. split; [discriminate |].
    intros (periods & tiers & -> & Hin & _).
    destruct periods; [contradiction Hin | discriminate Htruthy].
Qed.

(** C6: on an item whose weekday schedule and rate matrix have the shape
    of the API's (arrays of arrays of scalars, possibly absent or null),
    [classify_rate_structure] returns [tou] when the weekday schedule
    holds more than one distinct period index, whatever the tiers;
    otherwise [tiered] when some rate period has more than one tier;
    otherwise [flat]. *)
Theorem classify_rate_structure_priority (rate_data : obj)
  (Hschedule : well_typed_schedule (get_default rate_data "energyweekdayschedule" (JArr [])))
  (Hstructure : well_typed_structure (get_default rate_data "energyratestructure" (JArr []))) :
  let weekday := get_default rate_data "energyweekdayschedule" (JArr []) in
  let structure := get_default rate_data "energyratestructure" (JArr []) in
  (two_distinct_periods weekday -> classify_rate_structure rate_data = Ok tou)
  /\ (~ two_distinct_periods weekday -> some_period_tiered structure ->
      classify_rate_structure rate_data = Ok tiered)
  /\ (~ two_distinct_periods weekday -> ~ some_period_tiered structure ->
      classify_rate_structure rate_data = Ok flat).
Proof.
  intros weekday structure. subst weekday structure.
  unfold classify_rate_structure. cbv zeta.
  destruct (has_tou_decides _ Hschedule) as (has_tou & -> & Htou).
  destruct (has_tiers_decides _ Hstructure) as (has_tiers & -> & Htiers).
  cbn [bind].
  split; [| split].
  - intros H. apply Htou in H as ->. reflexivity.
  - intros Hno H. apply Htiers in H as ->.
    destruct has_tou; [contradiction Hno; apply Htou; reflexivity | reflexivity].
  - intros Hno Hnot.
    destruct has_tou; [contradiction Hno; apply Htou; reflexivity |].
    destruct has_tiers; [contradiction Hnot; apply Htiers; reflexivity | reflexivity].
Qed.

Lemma classify_rate_structure_priority_witness :
  classify_rate_structure tou_item = Ok tou.
Proof.
  refine (proj1 (@classify_rate_structure_priority tou_item _ _) _).
  - simpl. repeat constructor.
  - simpl. exact I.
  - exists (JInt 0), (JInt 1), (KNum 0), (KNum 1). simpl.
    repeat split; try reflexivity; [tauto | tauto | discriminate].
Defined.

(** X16: whatever the shape of the item, a classification that is returned
    follows the same priority; the shape only decides whether an
    exception is raised. *)
Lemma classify_rate_structure_sound (rate_data : obj) (kind : rate_kind) :
  classify_rate_structure rate_data = Ok kind ->
  let weekday := get_default rate_data "energyweekdayschedule" (JArr []) in
  let structure := get_default rate_data "energyratestructure" (JArr []) in
  (kind = tou <-> two_distinct_periods weekday)
  /\ (kind = tiered <-> ~ two_distinct_periods weekday /\ some_period_tiered structure).
Proof.
  intros Hrun weekday structure. subst weekday structure.
  unfold classify_rate_structure in Hrun. cbv zeta in Hrun.
  apply bind_ok in Hrun as (has_tou & Htou & Hrun).
  apply bind_ok in Hrun as (has_tiers & Htiers & Hrun). injection Hrun as <-.
  apply has_tou_sound in Htou. apply has_tiers_sound in Htiers.
  destruct has_tou, has_tiers; split; split; try discriminate; try reflexivity.
  all: try (intros _; apply Htou; reflexivity).
  all: try (intros [Hno _]; contradiction Hno; apply Htou; reflexivity).
  all: try (intros H; apply Htou in H; discriminate H).
  all: try (intros _; split; [intros H; apply Htou in H; discriminate H
                             | apply Htiers; reflexivity]).
  all: try (intros [_ H]; apply Htiers in H; discriminate H).
Qed.

(** C9: two items that differ only in [energyweekendschedule] get the
    same classification (or raise the same exception): the weekend
    schedule is read and never used. *)
Theorem weekend_schedule_is_ignored (a b : obj)
  (Hsame : differ_only_at "energyweekendschedule" a b) :
  classify_rate_structure a = classify_rate_structure b.
Proof.
  unfold classify_rate_structure, get_default.
  rewrite (Hsame "energyweekdayschedule") by discriminate.
  rewrite (Hsame "energyratestructure") by discriminate.
  reflexivity.
Qed.

Lemma weekend_schedule_is_ignored_witness :
  classify_rate_structure tou_item
  = classify_rate_structure (("energyweekendschedule", JArr [JArr [JInt 0; JInt 1]]) :: tou_item).
Proof.
  apply weekend_schedule_is_ignored.
  intros k Hk. simpl.
  destruct (String.eqb_spec k "energyweekendschedule") as [E | _]; [contradiction | reflexivity].
Defined.

(** ** Aggregator *)

(** C7: the [national_avg_rate] of the national file is the unweighted
    mean of the 50 entries of [EIA_STATE_AVG_RATES] rounded to 4 decimal
    places, that is 0.1578, whatever utilities the run found. *)
Theorem national_average_is_reference_mean
  (net : nat -> query -> attempt) (py_hash : string -> Z) (py_repr : json -> string)
  (today api_key : string) (w w' : world) (files : list StateData) (national : NationalData)
  (Hrun : main net py_hash py_repr today api_key w = Ok (files, national, w')) :
  national_avg_rate national = py_round (mean (map snd EIA_STATE_AVG_RATES)) 4
  /\ List.length EIA_STATE_AVG_RATES = 50%nat
  /\ national_avg_rate national = 1578 # 10000
  /\ forall all_utilities state_summary,
       national_avg_rate (national_data all_utilities state_summary)
       = national_avg_rate national.
Proof.
  unfold main in Hrun. destruct (String.eqb api_key ""); [discriminate Hrun |].
  apply bind_ok in Hrun as ([[[fs us] ss] w1] & _ & Hrun).
  injection Hrun as _ <- _.
  repeat split; reflexivity.
Qed.

Lemma national_average_is_reference_mean_witness :
  match main net_down hash0 repr0 "2026-11-04" "KEY" world0 with
  | Ok (_, national, _) => national_avg_rate national = 1578 # 10000
  | Raise _ => False
  end.
Proof.
  destruct (main net_down hash0 repr0 "2026-11-04" "KEY" world0)
    as [[[files national] w'] | e] eqn:Hrun.
  - exact (proj1 (proj2 (proj2
      (national_average_is_reference_mean net_down hash0 repr0 "2026-11-04" "KEY"
         world0 w' files national Hrun)))).
  - vm_compute in Hrun. discriminate Hrun.
Defined.

(** ** Rate client *)

Section ClientProperties.

Variable net : nat -> query -> attempt.

Lemma api_call_attempts (q : query) (w : world) (data : json) (w' : world) :
  api_call net q 3 w = Ok (data, w') ->
  exists n, (1 <= n <= 3)%nat
            /\ attempts w' = (attempts w + n)%nat
            /\ slept w' = (slept w ++ backoff (n - 1))%list.
Proof.
  unfold api_call. cbn [seq api_call_loop].
  destruct (net (attempts w) q) as [d0 | e0].
  { intros H; injection H as <- <-. exists 1%nat. cbn. rewrite app_nil_r.
    repeat split; lia. }
  destruct (caught e0); [| discriminate]. cbn [Nat.ltb Nat.leb Nat.sub tick sleep attempts slept].
  destruct (net (S (attempts w)) q) as [d1 | e1].
  { intros H; injection H as <- <-. exists 2%nat. cbn. repeat split; lia. }
  destruct (caught e1); [| discriminate]. cbn [Nat.ltb Nat.leb Nat.sub tick sleep attempts slept].
  destruct (net (S (S (attempts w))) q) as [d2 | e2].
  { intros H; injection H as <- <-. exists 3%nat. cbn. rewrite <- app_assoc.
    repeat split; lia. }
  destruct (caught e2); [| discriminate].
  intros H; injection H as <- <-. exists 3%nat. cbn. rewrite <- app_assoc.
  repeat split; lia.
Qed.

Lemma api_call_exhausted (q : query) (w : world) :
  (forall i, (i < 3)%nat -> exists e, net (attempts w + i) q = Failed e /\ caught e = true) ->
  exists w', api_call net q 3 w = Ok (JNull, w')
             /\ attempts w' = (attempts w + 3)%nat
             /\ slept w' = (slept w ++ [1; 2])%list.
Proof.
  intros Hfail.
  destruct (Hfail 0%nat ltac:(lia)) as (e0 & H0 & C0).
  destruct (Hfail 1%nat ltac:(lia)) as (e1 & H1 & C1).
  destruct (Hfail 2%nat ltac:(lia)) as (e2 & H2 & C2).
  rewrite Nat.add_0_r in H0. rewrite Nat.add_1_r in H1.
  replace (attempts w + 2)%nat with (S (S (attempts w))) in H2 by lia.
  unfold api_call. cbn [seq api_call_loop].
  rewrite H0, C0. cbn [Nat.ltb Nat.leb Nat.sub tick sleep attempts slept].
  rewrite H1, C1. cbn [Nat.ltb Nat.leb Nat.sub tick sleep attempts slept].
  rewrite H2, C2. cbn [Nat.ltb Nat.leb Nat.sub tick sleep attempts slept].
  eexists. split; [reflexivity |]. cbn. rewrite <- app_assoc. split; [lia | reflexivity].
Qed.


(** What [api_call] returns is [None] or the body of some attempt. *)
Lemma api_call_data (q : query) (w : world) (data : json) (w' : world) :
  api_call net q 3 w = Ok (data, w') ->
  data = JNull \/ exists i, net i q = Returned data.
Proof.
  unfold api_call. cbn [seq api_call_loop].
  destruct (net (attempts w) q) as [d0 | e0] eqn:E0.
  { intros H; injection H as <- <-. right. eexists; exact E0. }
  destruct (caught e0); [| discriminate]. cbn [Nat.ltb Nat.leb Nat.sub tick sleep attempts slept].
  destruct (net (S (attempts w)) q) as [d1 | e1] eqn:E1.
  { intros H; injection H as <- <-. right. eexists; exact E1. }
  destruct (caught e1); [| discriminate]. cbn [Nat.ltb Nat.leb Nat.sub tick sleep attempts slept].
  destruct (net (S (S (attempts w))) q) as [d2 | e2] eqn:E2.
  { intros H; injection H as <- <-. right. eexists; exact E2. }
  destruct (caught e2); [| discriminate].
  intros H; injection H as <- <-. left; reflexivity.
Qed.

End ClientProperties.



(** An exception outside the classes of the [except] clause is not
    retried: it leaves [api_call]. *)
Lemma other_errors_propagate (net : nat -> query -> attempt) (q : query) (w : world) :
  net (attempts w) q = Failed OtherError ->
  api_call net q 3 w = Raise (NetworkError OtherError).
Proof.
  intros H. unfold api_call. cbn [seq api_call_loop]. rewrite H. reflexivity.
Qed.

(** ** Reconciler: one item of a geographic response *)

Lemma key_eqb_refl (k : pykey) : key_eqb k k = true.
Proof. apply key_eqb_eq. reflexivity. Qed.

Lemma key_eqb_neq (a b : pykey) : a <> b -> key_eqb a b = false.
Proof.
  intros H. destruct (key_eqb a b) eqn:E; [| reflexivity].
  apply key_eqb_eq in E. contradiction.
Qed.

Lemma dict_get_set_same (k : pykey) (e : entry) (d : dict) :
  dict_get k (dict_set k e d) = Some e.
Proof.
  induction d as [| [k' e'] d IH]; simpl.
  - rewrite key_eqb_refl. reflexivity.
  - destruct (key_eqb k k') eqn:E; simpl; rewrite E; [reflexivity | exact IH].
Qed.

Lemma dict_get_set_other (k k' : pykey) (e : entry) (d : dict) :
  k' <> k -> dict_get k' (dict_set k e d) = dict_get k' d.
Proof.
  intros Hne. induction d as [| [k0 e0] d IH]; simpl.
  - rewrite (key_eqb_neq _ _ Hne). reflexivity.
  - destruct (key_eqb k k0) eqn:E; simpl.
    + apply key_eqb_eq in E as <-. rewrite (key_eqb_neq _ _ Hne). reflexivity.
    + rewrite IH. reflexivity.
Qed.

Lemma py_gt_numbers (a b : json) (x y : Q) :
  to_number a = Some x -> to_number b = Some y ->
  py_gt a b = Ok (if Qlt_le_dec y x then true else false).
Proof. intros Ha Hb. unfold py_gt. rewrite Ha, Hb. reflexivity. Qed.

Section ItemProperties.

Variable py_repr : json -> string.
Variable today : string.
Variable state_code : string.
Variable known_ious : list (string * Z).

Lemma geo_entry_startdate (it : obj) (eia_id utility item_start : json) (e : entry) :
  geo_entry py_repr today state_code known_ious it eia_id utility item_start = Ok e ->
  _startdate e = item_start.
Proof.
  unfold geo_entry. intros H.
  apply bind_ok in H as (avg & _ & H). apply bind_ok in H as (rs & _ & H).
  destruct utility; try discriminate H. injection H as <-. reflexivity.
Qed.

Lemma geo_item_skips (it : obj) (d : dict) :
  no_usable_id it -> geo_item py_repr today state_code known_ious d (JObj it) = Ok d.
Proof.
  unfold no_usable_id, geo_item, get_default.
  destruct (obj_get "eiaid" it) as [v |]; [intros -> | intros _]; reflexivity.
Qed.

Lemma geo_item_decides (it : obj) (d : dict) (k : pykey) (start : Q) :
  truthy (get_default it "eiaid" JNull) = true ->
  key_of (get_default it "eiaid" JNull) = Ok k ->
  to_number (get_default it "startdate" (JInt 0)) = Some start ->
  (dict_get k d = None ->
   geo_item py_repr today state_code known_ious d (JObj it)
   = accept py_repr today state_code known_ious it k d)
  /\ (forall e0 s0, dict_get k d = Some e0 -> to_number (_startdate e0) = Some s0 ->
      s0 < start ->
      geo_item py_repr today state_code known_ious d (JObj it)
   = accept py_repr today state_code known_ious it k d)
  /\ (forall e0 s0, dict_get k d = Some e0 -> to_number (_startdate e0) = Some s0 ->
      start <= s0 ->
      geo_item py_repr today state_code known_ious d (JObj it) = Ok d).
Proof.
  intros Htruthy Hkey Hstart. unfold geo_item, accept. rewrite Htruthy, Hkey.
  cbn [negb bind]. split; [| split].
  - intros ->. reflexivity.
  - intros e0 s0 -> Hs0 Hlt. rewrite (py_gt_numbers _ _ _ _ Hstart Hs0). cbn [bind].
    destruct (Qlt_le_dec s0 start) as [_ | Hle]; [reflexivity |].
    exfalso. apply (Qlt_not_le _ _ Hlt Hle).
  - intros e0 s0 -> Hs0 Hle. rewrite (py_gt_numbers _ _ _ _ Hstart Hs0). cbn [bind].
    destruct (Qlt_le_dec s0 start) as [Hlt | _]; [| reflexivity].
    exfalso. apply (Qlt_not_le _ _ Hlt Hle).
Qed.

End ItemProperties.


(** C10: in the geographic path an item whose [eiaid] is missing, null,
    zero or empty leaves the dictionary as it is, and the response gives
    the same records with or without the item. *)
Theorem items_without_id_are_skipped
  (py_repr : json -> string) (today state_code : string) (known_ious : list (string * Z))
  (it : obj) (Hid : no_usable_id it) :
  (forall d, geo_item py_repr today state_code known_ious d (JObj it) = Ok d)
  /\ (forall before after d,
        for_each (geo_item py_repr today state_code known_ious) (before ++ JObj it :: after) d
        = for_each (geo_item py_repr today state_code known_ious) (before ++ after) d).
Proof.
  split.
  - intros d. apply geo_item_skips. exact Hid.
  - intros before after d. rewrite !for_each_app.
    destruct (for_each (geo_item py_repr today state_code known_ious) before d) as [d1 | e];
      [| reflexivity].
    cbn [bind for_each]. rewrite (geo_item_skips _ _ _ _ _ _ Hid). reflexivity.
Qed.


(** Start dates 100 then 200: the second item wins. *)
Example later_start_date_wins :
  rate_names (for_each (geo_item repr0 "2026-11-04" "AL" []) [JObj item_100; JObj item_200] [])
  = [JStr "new"].
Proof. reflexivity. Qed.

(** Start dates 200 then 100: the first item stays. *)
Example earlier_start_date_loses :
  rate_names (for_each (geo_item repr0 "2026-11-04" "AL" []) [JObj item_200; JObj item_100] [])
  = [JStr "new"].
Proof. reflexivity. Qed.

(** Equal start dates: the first-seen item stays. *)
Example equal_start_dates_keep_first :
  rate_names (for_each (geo_item repr0 "2026-11-04" "AL" [])
                [JObj item_200; JObj item_200_again] [])
  = [JStr "new"].
Proof. reflexivity. Qed.

Lemma items_without_id_are_skipped_witness :
  geo_item repr0 "2026-11-04" "AL" [] [] (JObj [("utility", JStr "Alabama Power Co")]) = Ok [].
Proof.
  refine (proj1 (items_without_id_are_skipped repr0 "2026-11-04" "AL" []
                   [("utility", JStr "Alabama Power Co")] _) []).
  exact I.
Defined.

(** The four cases of the claim: a missing, null, zero or empty [eiaid]. *)
Example unusable_ids :
  no_usable_id [("utility", JStr "A")]
  /\ no_usable_id [("eiaid", JNull)]
  /\ no_usable_id [("eiaid", JInt 0)]
  /\ no_usable_id [("eiaid", JFloat 0)]
  /\ no_usable_id [("eiaid", JStr "")]
  /\ no_usable_id [("eiaid", JArr [])].
Proof. repeat split. Qed.

(** ** Rounding and the plausible range *)

Lemma round_half_even_lower (x : Q) (a : Z) : inject_Z a <= x -> (a <= round_half_even x)%Z.
Proof.
  intros H. assert (Hf : (a <= Qfloor x)%Z).
  { rewrite <- (Qfloor_Z a). apply Qfloor_resp_le. exact H. }
  unfold round_half_even.
  destruct (Qcompare (x - inject_Z (Qfloor x)) (1 # 2)); [destruct (Z.even (Qfloor x)) | |]; lia.
Qed.

Lemma round_half_even_upper (x : Q) (b : Z) : x <= inject_Z b -> (round_half_even x <= b)%Z.
Proof.
  intros H. pose proof (Qfloor_resp_le _ _ H) as Hf. rewrite Qfloor_Z in Hf.
  destruct (Z.eq_dec (Qfloor x) b) as [E | Hne].
  - assert (Hx : x == inject_Z b).
    { apply Qle_antisym; [exact H |]. rewrite <- E. apply Qfloor_le. }
    unfold round_half_even. rewrite E.
    assert (Hc : Qcompare (x - inject_Z b) (1 # 2) = Lt).
    { rewrite <- Qlt_alt. rewrite Hx. unfold Qminus. rewrite Qplus_opp_r. reflexivity. }
    rewrite Hc. lia.
  - unfold round_half_even.
    destruct (Qcompare (x - inject_Z (Qfloor x)) (1 # 2)); [destruct (Z.even (Qfloor x)) | |]; lia.
Qed.

Lemma py_round_4_in_range (r : Q) : in_plausible_range r -> in_plausible_range (py_round r 4).
Proof.
  intros [Hlo Hhi]. unfold in_plausible_range, py_round.
  change (Z.pos (pow10 4)) with 10000%Z. change (pow10 4) with 10000%positive.
  assert (Hlo' : inject_Z 100 <= r * inject_Z 10000).
  { unfold Qle in *. cbn in *. lia. }
  assert (Hhi' : r * inject_Z 10000 <= inject_Z 10000).
  { unfold Qle in *. cbn in *. lia. }
  apply round_half_even_lower in Hlo'. apply round_half_even_upper in Hhi'.
  unfold Qle. cbn. lia.
Qed.

Lemma table_get_forall {A : Type} (P : A -> Prop) (t : list (string * A)) (k : string)
  (default : A) :
  Forall P (map snd t) -> P default -> P (table_get t k default).
Proof.
  intros Ht Hd. unfold table_get.
  induction t as [| [k' v] t IH]; simpl; [exact Hd |].
  inversion Ht as [| ? ? Hv Hrest]; subst.
  destruct (String.eqb k k'); [exact Hv | apply IH; exact Hrest].
Qed.





(** ** Reconciler: the two loops *)

Lemma dict_set_in (k : pykey) (e : entry) (d : dict) (k' : pykey) (e' : entry) :
  In (k', e') (dict_set k e d) -> (k' = k /\ e' = e) \/ In (k', e') d.
Proof.
  induction d as [| [k0 e0] d IH]; simpl.
  - intros [H | []]. injection H as <- <-. left; split; reflexivity.
  - destruct (key_eqb k k0) eqn:E; simpl.
    + apply key_eqb_eq in E as <-. intros [H | H].
      * injection H as <- <-. left; split; reflexivity.
      * right; right; exact H.
    + intros [H | H]; [right; left; exact H |].
      destruct (IH H) as [Hnew | Hold]; [left; exact Hnew | right; right; exact Hold].
Qed.

Lemma values_dict_set (P : entry -> Prop) (k : pykey) (e : entry) (d : dict) :
  Forall P (values d) -> P e -> Forall P (values (dict_set k e d)).
Proof.
  intros Hd He. apply Forall_forall. intros e' Hin.
  apply in_map_iff in Hin as ([k' e''] & <- & Hin).
  apply dict_set_in in Hin as [[_ ->] | Hin]; [exact He |].
  eapply Forall_forall; [exact Hd |]. apply in_map_iff. exists (k', e''). split; [reflexivity | exact Hin].
Qed.

Lemma insert_by_count_perm (x : UtilityRecord) (l : list UtilityRecord) :
  Permutation (insert_by_count x l) (x :: l).
Proof.
  induction l as [| y l IH]; simpl; [apply Permutation_refl |].
  destruct (customer_count x <? customer_count y)%Z; [| apply Permutation_refl].
  eapply Permutation_trans; [apply perm_skip; exact IH | apply perm_swap].
Qed.

Lemma sort_by_count_perm (l : list UtilityRecord) : Permutation (sort_by_count l) l.
Proof.
  induction l as [| x l IH]; simpl; [apply Permutation_refl |].
  eapply Permutation_trans; [apply insert_by_count_perm | apply perm_skip; exact IH].
Qed.

Section LoopProperties.

Variable net : nat -> query -> attempt.
Variable py_hash : string -> Z.
Variable py_repr : json -> string.
Variable today : string.
Variable state_code : string.

Lemma geo_point_invariant (known_ious : list (string * Z)) (I : dict -> Prop) :
  (forall d item d', geo_responded net item -> I d ->
     geo_item py_repr today state_code known_ious d item = Ok d' -> I d') ->
  forall dw point dw',
    I (fst dw) ->
    geo_point net py_repr today state_code known_ious dw point = Ok dw' ->
    I (fst dw').
Proof.
  intros Hstep [d w] [[city_name lat] lon] [d' w'] Hd Hrun. cbn [fst] in *.
  unfold geo_point in Hrun.
  apply bind_ok in Hrun as ([data w1] & Hcall & Hrun).
  destruct (truthy data) eqn:Htruthy; cbn [negb] in Hrun;
    [| injection Hrun as <- <-; exact Hd].
  apply bind_ok in Hrun as (has_items & _ & Hrun).
  destruct has_items; cbn [negb] in Hrun; [| injection Hrun as <- <-; exact Hd].
  destruct data as [| b | z | q | s | l | m]; try discriminate Hrun.
  apply bind_ok in Hrun as (items & Hitems & Hrun).
  apply bind_ok in Hrun as (d1 & Hloop & Hrun). injection Hrun as <- <-.
  apply api_call_data in Hcall as [Hnull | [i Hi]]; [discriminate Hnull |].
  apply (for_each_invariant I (geo_item py_repr today state_code known_ious) items)
    with (acc := d); [| exact Hd | exact Hloop].
  intros s x s' Hin Hs Hx. apply (Hstep s x s'); [| exact Hs | exact Hx].
  exists i, lat, lon, m, items. repeat split; assumption.
Qed.

(** The three ways [backfill_one] goes on a known utility. *)
Lemma backfill_one_cases (d : dict) (w : world) (name : string) (count : Z)
  (d' : dict) (w' : world) :
  backfill_one net py_hash py_repr today state_code (d, w) (name, count) = Ok (d', w') ->
  (d' = d /\ (count = 0%Z \/ found_in name d = true))
  \/ (count <> 0%Z /\ found_in name d = false /\
      exists data k e,
        direct_responded net name data /\ direct_has_items data = Ok true
        /\ direct_record py_hash py_repr today state_code name count data = Ok (k, e)
        /\ d' = dict_set k e d)
  \/ (count <> 0%Z /\ found_in name d = false /\
      (exists data, (data = JNull \/ direct_responded net name data)
                    /\ direct_has_items data = Ok false)
      /\ d' = dict_set (KNum (inject_Z (py_hash name)))
                       (synthesized py_hash py_repr today state_code name count) d).
Proof.
  unfold backfill_one. destruct (Z.eqb_spec count 0) as [-> | Hcount].
  { intros H; injection H as <- <-. left. split; [reflexivity | left; reflexivity]. }
  destruct (found_in name d) eqn:Hfound.
  { intros H; injection H as <- <-. left. split; [reflexivity | right; reflexivity]. }
  intros Hrun. apply bind_ok in Hrun as ([data w1] & Hcall & Hrun).
  apply bind_ok in Hrun as (has_items & Hhas & Hrun).
  apply api_call_data in Hcall.
  destruct has_items.
  - apply bind_ok in Hrun as ([k e] & Hrec & Hrun). injection Hrun as <- <-.
    right; left. repeat split; try assumption.
    exists data, k, e. repeat split; try assumption.
    destruct Hcall as [-> | Hresp]; [discriminate Hhas | exact Hresp].
  - injection Hrun as <- <-. right; right. repeat split; try assumption.
    exists data. split; assumption.
Qed.

Lemma fetch_result (w w' : world) (results : list UtilityRecord) :
  fetch_utilities_for_state net py_hash py_repr today state_code w = Ok (results, w') ->
  exists d1 w1 d2,
    for_each (geo_point net py_repr today state_code (table_get MAJOR_IOUS state_code []))
             (table_get STATE_QUERY_POINTS state_code []) ([], w) = Ok (d1, w1)
    /\ for_each (backfill_one net py_hash py_repr today state_code)
                (table_get MAJOR_IOUS state_code []) (d1, w1) = Ok (d2, w')
    /\ results = sort_by_count (map public (values d2)).
Proof.
  unfold fetch_utilities_for_state. intros H.
  apply bind_ok in H as ([d1 w1] & Hgeo & H).
  apply bind_ok in H as ([d2 w2] & Hback & H). injection H as <- <-.
  exists d1, w1, d2. repeat split; assumption.
Qed.

(** An invariant of the dictionary that each accepted item and each
    back-filled record keeps holds of the dictionary the state ends with. *)
Lemma fetch_invariant (I : dict -> Prop) (w w' : world) (results : list UtilityRecord) :
  I [] ->
  (forall d item d', geo_responded net item -> I d ->
     geo_item py_repr today state_code (table_get MAJOR_IOUS state_code []) d item = Ok d' ->
     I d') ->
  (forall d w name count d' w', I d ->
     backfill_one net py_hash py_repr today state_code (d, w) (name, count) = Ok (d', w') ->
     I d') ->
  fetch_utilities_for_state net py_hash py_repr today state_code w = Ok (results, w') ->
  exists d, I d /\ results = sort_by_count (map public (values d)).
Proof.
  intros Hnil Hgeo Hback Hrun.
  apply fetch_result in Hrun as (d1 & w1 & d2 & Hloop1 & Hloop2 & ->).
  exists d2. split; [| reflexivity].
  assert (H1 : I d1).
  { apply (for_each_invariant (fun dw => I (fst dw)) _ _
             (fun s x s' _ Hs Hx => geo_point_invariant _ I Hgeo s x s' Hs Hx)
             ([], w) (d1, w1) Hnil Hloop1). }
  apply (for_each_invariant (fun dw => I (fst dw))
           (backfill_one net py_hash py_repr today state_code)
           (table_get MAJOR_IOUS state_code []))
    with (acc := (d1, w1)) (acc' := (d2, w')); [| exact H1 | exact Hloop2].
  intros [d w0] [name count] [d' w0'] _ Hd Hx. cbn [fst] in *.
  apply (Hback d w0 name count d' w0' Hd Hx).
Qed.

End LoopProperties.

(** ** Reconciler: what a stored record holds *)

Section RecordProperties.

Variable py_hash : string -> Z.
Variable py_repr : json -> string.
Variable today : string.
Variable state_code : string.

Lemma geo_entry_fields (known_ious : list (string * Z)) (it : obj)
  (eia_id utility item_start : json) (e : entry) :
  geo_entry py_repr today state_code known_ious it eia_id utility item_start = Ok e ->
  exists avg_rate name,
    extract_rate_from_structure it = Ok avg_rate
    /\ utility = JStr name
    /\ utility_id (public e) = py_str py_repr eia_id
    /\ utility_name (public e) = name
    /\ residential_avg_rate (public e) = py_round (or_state_average state_code avg_rate) 4.
Proof.
  unfold geo_entry. intros H.
  apply bind_ok in H as (avg_rate & Havg & H). apply bind_ok in H as (rs & _ & H).
  destruct utility as [| | | | name | |]; try discriminate H. injection H as <-.
  exists avg_rate, name. repeat split; try reflexivity. exact Havg.
Qed.

Lemma direct_record_fields (name : string) (count : Z) (data : json) (k : pykey) (e : entry) :
  direct_record py_hash py_repr today state_code name count data = Ok (k, e) ->
  exists items it avg_rate,
    py_getitem_items data = Ok items
    /\ py_getitem_0 items = Ok (JObj it)
    /\ extract_rate_from_structure it = Ok avg_rate
    /\ key_of (get_default it "eiaid" (JInt (py_hash name))) = Ok k
    /\ utility_id (public e) = py_str py_repr (get_default it "eiaid" (JInt (py_hash name)))
    /\ utility_name (public e) = name
    /\ customer_count (public e) = count
    /\ residential_avg_rate (public e) = py_round (or_state_average state_code avg_rate) 4.
Proof.
  unfold direct_record. intros H.
  apply bind_ok in H as (items & Hitems & H). apply bind_ok in H as (item & Hitem & H).
  destruct item as [| | | | | | it]; try discriminate H.
  apply bind_ok in H as (avg_rate & Havg & H). apply bind_ok in H as (rs & _ & H).
  apply bind_ok in H as (k' & Hk & H). injection H as <- <-.
  exists items, it, avg_rate. repeat split; try reflexivity; assumption.
Qed.

Lemma geo_item_cases (known_ious : list (string * Z)) (d : dict) (item : json) (d' : dict) :
  geo_item py_repr today state_code known_ious d item = Ok d' ->
  d' = d
  \/ exists it k e,
       item = JObj it
       /\ truthy (get_default it "eiaid" JNull) = true
       /\ key_of (get_default it "eiaid" JNull) = Ok k
       /\ geo_entry py_repr today state_code known_ious it (get_default it "eiaid" JNull)
            (get_default it "utility" (JStr "Unknown"))
            (get_default it "startdate" (JInt 0)) = Ok e
       /\ d' = dict_set k e d.
Proof.
  unfold geo_item. destruct item as [| | | | | | it]; try discriminate.
  destruct (truthy (get_default it "eiaid" JNull)) eqn:Htruthy; cbn [negb];
    [| intros H; injection H as <-; left; reflexivity].
  intros H. apply bind_ok in H as (k & Hk & H). apply bind_ok in H as (newer & _ & H).
  destruct newer; cbn [negb] in H; [| injection H as <-; left; reflexivity].
  apply bind_ok in H as (e & He & H). injection H as <-.
  right. exists it, k, e. repeat split; try reflexivity; assumption.
Qed.

End RecordProperties.





(** ** Reconciler: one record per utility id *)

Lemma to_int_proper (z : Z) : Z.to_int z <> Decimal.Pos Decimal.Nil /\ Z.to_int z <> Decimal.Neg Decimal.Nil.
Proof.
  destruct z as [| p | p]; simpl; split; try discriminate;
    intros H; injection H as H; apply (DecimalPos.Unsigned.to_uint_nonnil p H).
Qed.

Lemma int_of_str_int (z : Z) : NilZero.int_of_string (str_int z) = Some (Z.to_int z).
Proof. destruct (to_int_proper z). apply NilZero.isi; assumption. Qed.

Lemma str_int_inj (a b : Z) : str_int a = str_int b -> a = b.
Proof.
  intros H. apply (f_equal NilZero.int_of_string) in H.
  rewrite !int_of_str_int in H. injection H as H.
  apply (f_equal Z.of_int) in H. rewrite !DecimalZ.of_to in H. exact H.
Qed.

Lemma str_int_not_None (z : Z) : str_int z <> "None".
Proof.
  intros H. apply (f_equal NilZero.int_of_string) in H.
  rewrite int_of_str_int in H. discriminate H.
Qed.

Lemma key_id_inj (k1 k2 : pykey) (id : string) : key_id k1 id -> key_id k2 id -> k1 = k2.
Proof.
  intros [(z1 & -> & H1) | [-> H1]] [(z2 & -> & H2) | [-> H2]].
  - rewrite H1 in H2. apply str_int_inj in H2 as ->. reflexivity.
  - rewrite H2 in H1. symmetry in H1. contradiction (str_int_not_None _ H1).
  - rewrite H1 in H2. symmetry in H2. contradiction (str_int_not_None _ H2).
  - reflexivity.
Qed.

Lemma dict_set_keys (k : pykey) (e : entry) (d : dict) :
  map fst (dict_set k e d)
  = if existsb (key_eqb k) (map fst d) then map fst d else (map fst d ++ [k])%list.
Proof.
  induction d as [| [k0 e0] d IH]; simpl; [reflexivity |].
  destruct (key_eqb k k0); simpl; [reflexivity |].
  rewrite IH. destruct (existsb (key_eqb k) (map fst d)); reflexivity.
Qed.

Lemma dict_set_nodup (k : pykey) (e : entry) (d : dict) :
  NoDup (map fst d) -> NoDup (map fst (dict_set k e d)).
Proof.
  intros Hd. rewrite dict_set_keys. exact (set_add_nodup k (map fst d) Hd).
Qed.

Lemma keyed_by_id_set (k : pykey) (e : entry) (d : dict) :
  keyed_by_id d -> key_id k (utility_id (public e)) -> keyed_by_id (dict_set k e d).
Proof.
  intros [Hnd Hid] Hk. split; [apply dict_set_nodup; exact Hnd |].
  intros k' e' Hin. apply dict_set_in in Hin as [[-> ->] | Hin]; [exact Hk | apply Hid; exact Hin].
Qed.

Lemma keyed_by_id_distinct (d : dict) :
  keyed_by_id d -> NoDup (map utility_id (map public (values d))).
Proof.
  intros [Hnd Hid]. induction d as [| [k e] d IH]; simpl; [constructor |].
  inversion Hnd as [| ? ? Hnotin Hnd']; subst. constructor.
  - intros Hin. apply in_map_iff in Hin as (r & Hr & Hin).
    apply in_map_iff in Hin as (e' & <- & Hin).
    apply in_map_iff in Hin as ([k' e''] & He & Hin). simpl in He. subst e''.
    assert (Hk' : key_id k' (utility_id (public e))).
    { rewrite <- Hr. apply Hid. right; exact Hin. }
    assert (Hk : key_id k (utility_id (public e))) by (apply Hid; left; reflexivity).
    rewrite (key_id_inj _ _ _ Hk Hk') in Hnotin.
    apply Hnotin. apply in_map_iff. exists (k', e'). split; [reflexivity | exact Hin].
  - apply IH; [exact Hnd' |]. intros k' e' Hin. apply Hid. right; exact Hin.
Qed.

Lemma integer_key_id (py_repr : json -> string) (it : obj) (default : json) (k : pykey) :
  integer_id (obj_get "eiaid" it) ->
  (default = JNull \/ exists z, default = JInt z) ->
  key_of (get_default it "eiaid" default) = Ok k ->
  key_id k (py_str py_repr (get_default it "eiaid" default)).
Proof.
  unfold get_default, integer_id. intros Hint Hdefault.
  destruct (obj_get "eiaid" it) as [[| | z | | | |] |]; try contradiction.
  - intros H; injection H as <-. right. split; reflexivity.
  - intros H; injection H as <-. left. exists z. split; reflexivity.
  - destruct Hdefault as [-> | [z ->]]; intros H; injection H as <-.
    + right. split; reflexivity.
    + left. exists z. split; reflexivity.
Qed.

(** C4, as the code has it: when every [eiaid] of every response is an
    integer (or absent or null), the [utility_id] fields of the state's
    list are pairwise distinct. *)
Theorem utility_ids_are_distinct
  (net : nat -> query -> attempt) (py_hash : string -> Z) (py_repr : json -> string)
  (today state_code : string) (w w' : world) (results : list UtilityRecord)
  (Hids : forall i q data, net i q = Returned data -> integer_ids data)
  (Hrun : fetch_utilities_for_state net py_hash py_repr today state_code w = Ok (results, w')) :
  NoDup (map utility_id results).
Proof.
  destruct (fetch_invariant net py_hash py_repr today state_code keyed_by_id w w' results)
    as (d & Hd & ->); [split; [constructor | intros ? ? []] | | | exact Hrun |].
  - intros d item d' (i & lat & lon & m & items & Hnet & Hiter & Hin) Hd Hstep.
    apply geo_item_cases in Hstep as [-> | (it & k & e & -> & _ & Hk & He & ->)];
      [exact Hd |].
    apply keyed_by_id_set; [exact Hd |].
    apply geo_entry_fields in He as (avg & name & _ & _ & -> & _ & _).
    apply integer_key_id; [| left; reflexivity | exact Hk].
    apply (Hids _ _ _ Hnet m items it eq_refl Hiter Hin).
  - intros d w0 name count d' w0' Hd Hstep.
    apply backfill_one_cases in Hstep
      as [[-> _] | [(_ & _ & data & k & e & [i Hnet] & _ & Hrec & ->) | (_ & _ & _ & ->)]];
      [exact Hd | |].
    + apply keyed_by_id_set; [exact Hd |].
      apply direct_record_fields in Hrec
        as (items & it & avg & Hitems & Hitem & _ & Hk & -> & _ & _ & _).
      apply integer_key_id; [| right; eexists; reflexivity | exact Hk].
      destruct data as [| | | | | | m]; try discriminate Hitems.
      unfold py_getitem_items in Hitems.
      destruct (obj_get "items" m) as [v |] eqn:Hv; [| discriminate Hitems].
      injection Hitems as ->.
      destruct items as [| | | | s | l | m']; try discriminate Hitem;
        [destruct s; discriminate Hitem |].
      destruct l as [| x l]; [discriminate Hitem |]. injection Hitem as ->.
      apply (Hids _ _ _ Hnet m (JObj it :: l) it eq_refl).
      * unfold get_default. rewrite Hv. reflexivity.
      * left; reflexivity.
    + apply keyed_by_id_set; [exact Hd |]. left. exists (py_hash name). split; reflexivity.
  - apply (Permutation_NoDup
             (Permutation_map utility_id (Permutation_sym (sort_by_count_perm _)))).
    apply keyed_by_id_distinct. exact Hd.
Qed.

Lemma utility_ids_are_distinct_witness :
  match fetch_utilities_for_state (net_geo one_cent_response) hash0 repr0 "2026-11-04" "DE"
          world0 with
  | Ok (results, _) => NoDup (map utility_id results)
  | Raise _ => False
  end.
Proof.
  destruct (fetch_utilities_for_state (net_geo one_cent_response) hash0 repr0 "2026-11-04"
              "DE" world0) as [[results w'] | e] eqn:Hrun.
  - apply (utility_ids_are_distinct (net_geo one_cent_response) hash0 repr0
             "2026-11-04" "DE" world0 w' results); [| exact Hrun].
    intros i [lat lon | name] data H; [| discriminate H].
    injection H as <-. intros m items it Hm Hiter Hin.
    injection Hm as <-. injection Hiter as <-.
    destruct Hin as [Hit | []]. injection Hit as <-. exact I.
  - vm_compute in Hrun. discriminate Hrun.
Defined.

(** C4 as stated fails: the number 5335 and the string "5335" are two
    dictionary keys with one [str]. *)
Lemma mixed_ids_collide :
  match fetch_utilities_for_state (net_geo mixed_ids_response) hash0 repr0 "2026-11-04" "DE"
          world0 with
  | Ok (results, _) =>
      map (fun r => (utility_name r, utility_id r)) results
      = [("Delmarva Power", "14"); ("City of Dover", "5335");
         ("Dover Public Utilities", "5335")]
  | Raise _ => False
  end
  /\ ~ NoDup ["14"; "5335"; "5335"].
Proof.
  split; [vm_compute; reflexivity |].
  intros H. inversion H as [| ? ? _ H']. inversion H' as [| ? ? Hnotin _].
  apply Hnotin. left; reflexivity.
Qed.

(** ** Reconciler: back-filling the known utilities *)

Lemma prefix_refl (s : string) : String.prefix s s = true.
Proof.
  induction s as [| c s IH]; simpl; [reflexivity |].
  destruct (ascii_dec c c) as [_ | Hne]; [exact IH | contradiction Hne; reflexivity].
Qed.

Lemma contains_refl (s : string) : contains s s = true.
Proof.
  destruct s as [| c s]; [reflexivity |].
  change (String.prefix (String c s) (String c s) || contains (String c s) s = true).
  rewrite prefix_refl. reflexivity.
Qed.

Lemma names_match_refl (a : string) : names_match a a = true.
Proof. unfold names_match. rewrite contains_refl. reflexivity. Qed.

Lemma names_match_sym (a b : string) : names_match a b = names_match b a.
Proof. unfold names_match. apply orb_comm. Qed.

Lemma distinct_names_split (before after : list string) (a : string) :
  distinct_names (before ++ a :: after) = true ->
  forall b, In b (before ++ after) -> names_match a b = false.
Proof.
  induction before as [| x before IH]; simpl; intros H b Hb.
  - apply andb_true_iff in H as [H _].
    rewrite forallb_forall in H. apply negb_true_iff. apply H. exact Hb.
  - apply andb_true_iff in H as [Hx Hrest]. destruct Hb as [<- | Hb].
    + rewrite forallb_forall in Hx. rewrite names_match_sym.
      apply negb_true_iff. apply Hx. apply in_or_app. right; left; reflexivity.
    + apply (IH Hrest b Hb).
Qed.

Lemma known_names_distinct (state_code : string) :
  distinct_names (map fst (table_get MAJOR_IOUS state_code [])) = true.
Proof.
  apply (table_get_forall (fun known => distinct_names (map fst known) = true));
    [| reflexivity].
  apply Forall_forall. intros known Hin. revert known Hin.
  apply forallb_forall. vm_compute. reflexivity.
Qed.

Lemma found_in_unmatched (name : string) (d : dict) :
  (forall k e, In (k, e) d -> names_match name (utility_name (public e)) = false) ->
  found_in name d = false.
Proof.
  intros H. unfold found_in. apply not_true_is_false. intros Hex.
  apply existsb_exists in Hex as (e & Hin & Hmatch).
  apply in_map_iff in Hin as ([k e'] & <- & Hin).
  specialize (H k e' Hin). unfold names_match in H. simpl in Hmatch.
  rewrite H in Hmatch. discriminate Hmatch.
Qed.









(** * Further properties of the pipeline *)

(** ** Record extractor: the fixed-charge estimate *)






(** ** Record extractor: the utility type *)

Lemma prefix_iff (a b : string) :
  String.prefix a b = true <-> exists after, b = (a ++ after)%string.
Proof.
  revert b. induction a as [| c a IH]; intros b.
  - destruct b; simpl; (split; [intros _; eexists; reflexivity | reflexivity]).
  - destruct b as [| c' b]; simpl.
    + split; [discriminate | intros [after H]; discriminate H].
    + destruct (ascii_dec c c') as [<- | Hne].
      * rewrite IH. split; intros [after H]; exists after.
        -- rewrite H. reflexivity.
        -- injection H as H. exact H.
      * split; [discriminate | intros [after H]]. injection H as H _. congruence.
Qed.

Lemma contains_iff (needle hay : string) :
  contains needle hay = true <->
  exists before after, hay = (before ++ needle ++ after)%string.
Proof.
  induction hay as [| c hay IH].
  - cbn [contains]. rewrite orb_false_r, prefix_iff. split.
    + intros [after H]. exists EmptyString, after. exact H.
    + intros (before & after & H). destruct before; [| discriminate H].
      exists after. exact H.
  - cbn [contains]. rewrite orb_true_iff, prefix_iff, IH. split.
    + intros [[after H] | (before & after & H)].
      * exists EmptyString, after. exact H.
      * exists (String c before), after. rewrite H. reflexivity.
    + intros (before & after & H). destruct before as [| c' before].
      * left. exists after. exact H.
      * right. injection H as _ H. exists before, after. exact H.
Qed.

Lemma keyword_check (keywords : list string) (name : string) :
  existsb (fun kw => contains kw (lower name)) keywords = true <-> has_keyword keywords name.
Proof.
  rewrite existsb_exists. unfold has_keyword. split.
  - intros (kw & Hin & H). apply contains_iff in H as (before & after & H).
    exists kw, before, after. split; assumption.
  - intros (kw & before & after & Hin & H). exists kw. split; [exact Hin |].
    apply contains_iff. exists before, after. exact H.
Qed.

(** X2: A utility is a cooperative exactly when its lower-cased name contains
    one of the cooperative keywords, municipal exactly when it contains
    none of those and one of the municipal keywords, and investor-owned
    otherwise; names that differ only in letter case are classified
    alike. *)
Theorem classify_utility_type_by_keywords (name : string) :
  (classify_utility_type name = coop <-> has_keyword coop_keywords name)
  /\ (classify_utility_type name = muni <->
      ~ has_keyword coop_keywords name /\ has_keyword muni_keywords name)
  /\ (classify_utility_type name = IOU <->
      ~ has_keyword coop_keywords name /\ ~ has_keyword muni_keywords name)
  /\ (forall other, lower other = lower name ->
        classify_utility_type other = classify_utility_type name).
Proof.
  unfold classify_utility_type. cbv zeta.
  pose proof (keyword_check coop_keywords name) as Hcoop.
  pose proof (keyword_check muni_keywords name) as Hmuni.
  split; [| split; [| split]].
  - destruct (existsb _ coop_keywords).
    + split; [intros _; apply Hcoop; reflexivity | reflexivity].
    + destruct (existsb _ muni_keywords);
        (split; [discriminate | intros H; apply Hcoop in H; discriminate H]).
  - destruct (existsb _ coop_keywords).
    + split; [discriminate | intros [H _]; contradiction H; apply Hcoop; reflexivity].
    + destruct (existsb _ muni_keywords).
      * split; [intros _ | reflexivity].
        split; [intros H; apply Hcoop in H; discriminate H | apply Hmuni; reflexivity].
      * split; [discriminate | intros [_ H]; apply Hmuni in H; discriminate H].
  - destruct (existsb _ coop_keywords).
    + split; [discriminate | intros [H _]; contradiction H; apply Hcoop; reflexivity].
    + destruct (existsb _ muni_keywords).
      * split; [discriminate | intros [_ H]; contradiction H; apply Hmuni; reflexivity].
      * split; [intros _ | reflexivity].
        split; intros H; [apply Hcoop in H | apply Hmuni in H]; discriminate H.
  - intros other ->. reflexivity.
Qed.

(** The keywords are matched anywhere in the name, not word by word:
    the "ec " of "Elec " makes a cooperative of an investor-owned
    utility of the reference table. *)
Example elec_is_read_as_cooperative :
  classify_utility_type "Public Service Elec & Gas Co" = coop
  /\ classify_utility_type "Pacific Gas & Electric Co" = IOU
  /\ classify_utility_type "City of Dover Electric Cooperative" = coop.
Proof. repeat split. Qed.

(** ** Reconciler: the customer count *)



(** "Alabama Power Company" is not a key of the table; the first known
    name it contains gives the count. *)
Example partial_name_gives_count :
  lookup_customer_count (table_get MAJOR_IOUS "AL" []) "Alabama Power Company" = 1500000%Z
  /\ lookup_customer_count (table_get MAJOR_IOUS "AL" []) "Joe Wheeler EMC" = 0%Z.
Proof. split; reflexivity. Qed.

(** ** Reconciler: what every record of a state's list satisfies *)

Section RecordInvariants.

Variable net : nat -> query -> attempt.
Variable py_hash : string -> Z.
Variable py_repr : json -> string.
Variable today : string.
Variable state_code : string.

Lemma geo_entry_shape (known_ious : list (string * Z)) (it : obj)
  (eia_id utility item_start : json) (e : entry) :
  geo_entry py_repr today state_code known_ious it eia_id utility item_start = Ok e ->
  exists avg_rate kind name,
    utility = JStr name
    /\ public e =
       {| utility_id := py_str py_repr eia_id;
          utility_name := name;
          state := state_code;
          states_served := [state_code];
          type := classify_utility_type name;
          customer_count := lookup_customer_count known_ious name;
          residential_avg_rate := py_round (or_state_average state_code avg_rate) 4;
          rate_structure := kind;
          has_net_metering := p_has_net_metering (nm_info_for state_code);
          net_metering_type := p_net_metering_type (nm_info_for state_code);
          export_rate := p_export_rate (nm_info_for state_code);
          tou_available := rate_kind_eqb kind tou;
          demand_charges := has_demand_charges it;
          updated_at := today |}.
Proof.
  unfold geo_entry. intros H.
  apply bind_ok in H as (avg_rate & _ & H). apply bind_ok in H as (kind & _ & H).
  destruct utility as [| | | | name | |]; try discriminate H. injection H as <-.
  exists avg_rate, kind, name. split; reflexivity.
Qed.

Lemma direct_record_shape (name : string) (count : Z) (data : json) (k : pykey) (e : entry) :
  direct_record py_hash py_repr today state_code name count data = Ok (k, e) ->
  exists it avg_rate kind,
    public e =
    {| utility_id := py_str py_repr (get_default it "eiaid" (JInt (py_hash name)));
       utility_name := name;
       state := state_code;
       states_served := [state_code];
       type := classify_utility_type name;
       customer_count := count;
       residential_avg_rate := py_round (or_state_average state_code avg_rate) 4;
       rate_structure := kind;
       has_net_metering := p_has_net_metering (nm_info_for state_code);
       net_metering_type := p_net_metering_type (nm_info_for state_code);
       export_rate := p_export_rate (nm_info_for state_code);
       tou_available := rate_kind_eqb kind tou;
       demand_charges := has_demand_charges it;
       updated_at := today |}.
Proof.
  unfold direct_record. intros H.
  apply bind_ok in H as (items & _ & H). apply bind_ok in H as (item & _ & H).
  destruct item as [| | | | | | it]; try discriminate H.
  apply bind_ok in H as (avg_rate & _ & H). apply bind_ok in H as (kind & _ & H).
  apply bind_ok in H as (k' & _ & H). injection H as <- <-.
  exists it, avg_rate, kind. reflexivity.
Qed.

(** A property of records that the three ways of building one
    establish holds of every record of the state's list. *)
Lemma fetch_records_forall (P : UtilityRecord -> Prop) (w w' : world)
  (results : list UtilityRecord) :
  (forall it eia_id utility item_start e,
     geo_entry py_repr today state_code (table_get MAJOR_IOUS state_code [])
       it eia_id utility item_start = Ok e -> P (public e)) ->
  (forall name count data k e,
     In (name, count) (table_get MAJOR_IOUS state_code []) -> count <> 0%Z ->
     direct_record py_hash py_repr today state_code name count data = Ok (k, e) ->
     P (public e)) ->
  (forall name count,
     In (name, count) (table_get MAJOR_IOUS state_code []) -> count <> 0%Z ->
     P (public (synthesized py_hash py_repr today state_code name count))) ->
  fetch_utilities_for_state net py_hash py_repr today state_code w = Ok (results, w') ->
  Forall P results.
Proof.
  intros Hgeo Hdirect Hsynth Hrun.
  apply fetch_result in Hrun as (d1 & w1 & d2 & Hloop1 & Hloop2 & ->).
  pose (I := fun d : dict => Forall (fun e => P (public e)) (values d)).
  assert (H1 : I d1).
  { apply (for_each_invariant (fun dw => I (fst dw))
             (geo_point net py_repr today state_code (table_get MAJOR_IOUS state_code []))
             (table_get STATE_QUERY_POINTS state_code []))
      with (acc := ([], w)) (acc' := (d1, w1)); [| constructor | exact Hloop1].
    intros s x s' _ Hs Hx.
    apply (geo_point_invariant net py_repr today state_code
             (table_get MAJOR_IOUS state_code []) I) with (dw := s) (point := x);
      [| exact Hs | exact Hx].
    intros d item d' _ Hd Hstep.
    apply geo_item_cases in Hstep as [-> | (it & k & e & _ & _ & _ & He & ->)];
      [exact Hd |].
    apply values_dict_set; [exact Hd | apply (Hgeo _ _ _ _ _ He)]. }
  assert (H2 : I d2).
  { apply (for_each_invariant (fun dw => I (fst dw))
             (backfill_one net py_hash py_repr today state_code)
             (table_get MAJOR_IOUS state_code []))
      with (acc := (d1, w1)) (acc' := (d2, w')); [| exact H1 | exact Hloop2].
    intros [d w0] [name count] [d' w0'] Hin Hd Hstep. cbn [fst] in *.
    apply backfill_one_cases in Hstep
      as [[-> _] | [(Hc & _ & data & k & e & _ & _ & Hrec & ->) | (Hc & _ & _ & ->)]];
      [exact Hd | |].
    - apply values_dict_set; [exact Hd | apply (Hdirect _ _ _ _ _ Hin Hc Hrec)].
    - apply values_dict_set; [exact Hd | apply (Hsynth _ _ Hin Hc)]. }
  apply (Permutation_Forall (Permutation_sym (sort_by_count_perm _))).
  apply Forall_map. exact H2.
Qed.

End RecordInvariants.

Lemma rate_kind_eqb_tou (kind : rate_kind) : rate_kind_eqb kind tou = true <-> kind = tou.
Proof. destruct kind; simpl; split; try discriminate; reflexivity. Qed.



(** X6: in every record of a state's list [type] is the classification of
    the record's own name, and [tou_available] is set exactly when
    [rate_structure] is [tou]. *)
Theorem records_derived_fields_agree
  (net : nat -> query -> attempt) (py_hash : string -> Z) (py_repr : json -> string)
  (today state_code : string) (w w' : world) (results : list UtilityRecord)
  (Hrun : fetch_utilities_for_state net py_hash py_repr today state_code w = Ok (results, w')) :
  Forall derived_fields_agree results.
Proof.
  apply (fetch_records_forall net py_hash py_repr today state_code
           derived_fields_agree w w' results); [| | | exact Hrun].
  - intros it eia_id utility item_start e He.
    apply geo_entry_shape in He as (avg & kind & name & _ & ->).
    split; [reflexivity | apply rate_kind_eqb_tou].
  - intros name count data k e _ _ He.
    apply direct_record_shape in He as (it & avg & kind & ->).
    split; [reflexivity | apply rate_kind_eqb_tou].
  - intros name count _ _. split; [reflexivity |]. cbn. split; discriminate.
Qed.

Lemma records_derived_fields_agree_witness :
  match fetch_utilities_for_state (net_geo (JObj [("items", JArr [JObj (("eiaid", JInt 5335)
          :: ("utility", JStr "City of Dover") :: tou_item)])])) hash0 repr0 "2026-11-04" "DE"
          world0 with
  | Ok (results, _) => Forall derived_fields_agree results
  | Raise _ => False
  end.
Proof.
  destruct (fetch_utilities_for_state (net_geo (JObj [("items", JArr [JObj (("eiaid", JInt 5335)
              :: ("utility", JStr "City of Dover") :: tou_item)])])) hash0 repr0 "2026-11-04"
              "DE" world0) as [[results w'] | e] eqn:Hrun.
  - exact (records_derived_fields_agree _ hash0 repr0 "2026-11-04" "DE"
             world0 w' results Hrun).
  - vm_compute in Hrun. discriminate Hrun.
Defined.







(** ** Reconciler: the order of a state's list *)

Lemma insert_by_count_sorted (x : UtilityRecord) (l : list UtilityRecord) :
  StronglySorted by_count_descending l ->
  StronglySorted by_count_descending (insert_by_count x l).
Proof.
  induction 1 as [| y l Hsorted IH Hy]; cbn [insert_by_count].
  - constructor; constructor.
  - destruct (Z.ltb_spec (customer_count x) (customer_count y)) as [Hlt | Hge].
    + constructor; [exact IH |].
      apply (Permutation_Forall (Permutation_sym (insert_by_count_perm x l))).
      constructor; [unfold by_count_descending; lia | exact Hy].
    + constructor; [constructor; assumption |].
      constructor; [exact Hge |].
      eapply Forall_impl; [| exact Hy]. unfold by_count_descending. intros z Hz. lia.
Qed.

Lemma sort_by_count_sorted (l : list UtilityRecord) :
  StronglySorted by_count_descending (sort_by_count l).
Proof.
  induction l as [| x l IH]; cbn [sort_by_count fold_right]; [constructor |].
  apply insert_by_count_sorted. exact IH.
Qed.

Lemma insert_by_count_filter (c : Z) (x : UtilityRecord) (l : list UtilityRecord) :
  filter (with_count c) (insert_by_count x l) = filter (with_count c) (x :: l).
Proof.
  induction l as [| y l IH]; [reflexivity |]. cbn [insert_by_count].
  destruct (Z.ltb_spec (customer_count x) (customer_count y)) as [Hlt | _]; [| reflexivity].
  cbn [filter] in *. rewrite IH. unfold with_count.
  destruct (Z.eqb_spec (customer_count x) c) as [Hx | _]; [| reflexivity].
  destruct (Z.eqb_spec (customer_count y) c) as [Hy | _]; [lia | reflexivity].
Qed.

Lemma sort_by_count_filter (c : Z) (l : list UtilityRecord) :
  filter (with_count c) (sort_by_count l) = filter (with_count c) l.
Proof.
  induction l as [| x l IH]; [reflexivity |]. cbn [sort_by_count fold_right].
  rewrite insert_by_count_filter. cbn [filter]. fold (sort_by_count l). rewrite IH.
  reflexivity.
Qed.

(** X8: A state's list is in descending order of customer count; it holds
    the records of the dictionary the two loops end with, each once, and
    records with the same count keep the order in which their keys
    entered the dictionary. *)
Theorem state_list_is_sorted
  (net : nat -> query -> attempt) (py_hash : string -> Z) (py_repr : json -> string)
  (today state_code : string) (w w' : world) (results : list UtilityRecord)
  (Hrun : fetch_utilities_for_state net py_hash py_repr today state_code w = Ok (results, w')) :
  StronglySorted by_count_descending results
  /\ exists d1 w1 d2,
       for_each (geo_point net py_repr today state_code (table_get MAJOR_IOUS state_code []))
                (table_get STATE_QUERY_POINTS state_code []) ([], w) = Ok (d1, w1)
       /\ for_each (backfill_one net py_hash py_repr today state_code)
                   (table_get MAJOR_IOUS state_code []) (d1, w1) = Ok (d2, w')
       /\ Permutation results (map public (values d2))
       /\ forall c, filter (with_count c) results
                    = filter (with_count c) (map public (values d2)).
Proof.
  apply fetch_result in Hrun as (d1 & w1 & d2 & Hloop1 & Hloop2 & ->).
  split; [apply sort_by_count_sorted |].
  exists d1, w1, d2. repeat split; try assumption.
  - apply sort_by_count_perm.
  - intros c. apply sort_by_count_filter.
Qed.

Lemma state_list_is_sorted_witness :
  match fetch_utilities_for_state net_indiana_michigan hash0 repr0 "2026-11-04" "IN"
          world0 with
  | Ok (results, _) => StronglySorted by_count_descending results
  | Raise _ => False
  end.
Proof.
  destruct (fetch_utilities_for_state net_indiana_michigan hash0 repr0 "2026-11-04" "IN"
              world0) as [[results w'] | e] eqn:Hrun.
  - exact (proj1 (state_list_is_sorted net_indiana_michigan hash0 repr0 "2026-11-04" "IN"
                    world0 w' results Hrun)).
  - vm_compute in Hrun. discriminate Hrun.
Defined.

(** ** Rate client: any number of retries *)

Lemma api_call_loop_attempts (net : nat -> query -> attempt) (q : query) (retries : nat) :
  forall m a w data w',
    (a + m = retries)%nat ->
    api_call_loop net q retries (seq a m) w = Ok (data, w') ->
    exists n,
      (n <= m)%nat /\ (1 <= m -> 1 <= n)%nat
      /\ attempts w' = (attempts w + n)%nat
      /\ slept w' = (slept w ++ map (fun i => inject_Z (Z.of_nat i)) (seq (S a) (n - 1)))%list
      /\ (data = JNull \/ net (attempts w + n - 1)%nat q = Returned data).
Proof.
  induction m as [| m IH]; intros a w data w' Hsum Hrun.
  - cbn in Hrun. injection Hrun as <- <-. exists 0%nat. cbn. rewrite app_nil_r.
    repeat split; try lia. left; reflexivity.
  - cbn [seq api_call_loop] in Hrun.
    destruct (net (attempts w) q) as [d0 | e0] eqn:E0.
    + injection Hrun as <- <-. exists 1%nat. cbn. rewrite app_nil_r.
      repeat split; try lia. right. replace (attempts w + 1 - 1)%nat with (attempts w) by lia.
      exact E0.
    + destruct (caught e0); [| discriminate Hrun].
      destruct (Nat.ltb_spec a (retries - 1)) as [Hlt | Hge].
      * apply IH in Hrun as (n & Hn & Hpos & Hatt & Hslept & Hdata); [| lia].
        cbn [attempts slept tick sleep] in Hatt, Hslept, Hdata.
        exists (S n). assert (Hn1 : (1 <= n)%nat) by (apply Hpos; lia).
        repeat split; try lia.
        -- rewrite Hslept, <- app_assoc. f_equal. cbn [app].
           replace (S n - 1)%nat with (S (n - 1)) by lia. cbn [seq map]. f_equal.
           f_equal. lia.
        -- destruct Hdata as [-> | Hdata]; [left; reflexivity | right].
           replace (attempts w + S n - 1)%nat with (S (attempts w) + n - 1)%nat by lia.
           exact Hdata.
      * injection Hrun as <- <-. exists 1%nat. cbn. rewrite app_nil_r.
        repeat split; try lia. left; reflexivity.
Qed.

(** X9: whatever [retries] is, a call that returns made at most [retries]
    attempts, waited 1 s, 2 s, ... after its failed attempts but the
    last, and returns [None] or the body of its last attempt; with
    [retries = 0] it returns [None] without any attempt. *)
Theorem api_call_respects_retries
  (net : nat -> query -> attempt) (q : query) (retries : nat) (w w' : world) (data : json)
  (Hrun : api_call net q retries w = Ok (data, w')) :
  (exists n,
     (n <= retries)%nat
     /\ attempts w' = (attempts w + n)%nat
     /\ slept w' = (slept w ++ backoff (n - 1))%list
     /\ (data = JNull \/ net (attempts w + n - 1)%nat q = Returned data))
  /\ (retries = 0%nat -> data = JNull /\ w' = w).
Proof.
  split.
  - unfold api_call in Hrun.
    apply (api_call_loop_attempts net q retries retries 0 w data w' eq_refl) in Hrun
      as (n & Hn & _ & Hatt & Hslept & Hdata).
    exists n. repeat split; assumption.
  - intros ->. cbn in Hrun. injection Hrun as <- <-. split; reflexivity.
Qed.

Lemma api_call_respects_retries_witness :
  exists n,
    (n <= 5)%nat
    /\ attempts {| attempts := 3; slept := [1; 2] |} = (attempts world0 + n)%nat
    /\ slept {| attempts := 3; slept := [1; 2] |} = (slept world0 ++ backoff (n - 1))%list
    /\ (JObj [] = JNull
        \/ net_third_time (JObj []) (attempts world0 + n - 1)%nat (NameQuery "JEA")
           = Returned (JObj [])).
Proof.
  exact (proj1 (api_call_respects_retries (net_third_time (JObj [])) (NameQuery "JEA") 5
                  world0 {| attempts := 3; slept := [1; 2] |} (JObj []) eq_refl)).
Defined.

(** ** Reconciler: how many attempts a state costs *)

Lemma for_each_cost {A S : Type} (measure : S -> nat) (cost : A -> nat)
  (step : S -> A -> res S) (xs : list A) :
  (forall s x s', step s x = Ok s' ->
     (measure s <= measure s' <= measure s + cost x)%nat) ->
  forall acc acc',
    for_each step xs acc = Ok acc' ->
    (measure acc <= measure acc' <= measure acc + list_sum (map cost xs))%nat.
Proof.
  intros Hstep. induction xs as [| x xs IH]; intros acc acc' Hrun; cbn in Hrun.
  - injection Hrun as <-. cbn. lia.
  - apply bind_ok in Hrun as (s & Hs & Hrest).
    apply Hstep in Hs. apply IH in Hrest. simpl. lia.
Qed.

Section AttemptBounds.

Variable net : nat -> query -> attempt.
Variable py_hash : string -> Z.
Variable py_repr : json -> string.
Variable today : string.
Variable state_code : string.

Lemma geo_point_attempts (known_ious : list (string * Z)) (dw dw' : dict * world)
  (point : string * Q * Q) :
  geo_point net py_repr today state_code known_ious dw point = Ok dw' ->
  (attempts (snd dw) <= attempts (snd dw') <= attempts (snd dw) + 3)%nat.
Proof.
  destruct dw as [d w], dw' as [d' w'], point as [[city lat] lon]. cbn [snd].
  unfold geo_point. intros Hrun.
  apply bind_ok in Hrun as ([data w1] & Hcall & Hrun).
  apply api_call_attempts in Hcall as (n & Hn & Hatt & _).
  assert (Hw : attempts w' = attempts w1).
  { destruct (truthy data); cbn [negb] in Hrun; [| injection Hrun as _ <-; reflexivity].
    apply bind_ok in Hrun as (has_items & _ & Hrun).
    destruct has_items; cbn [negb] in Hrun; [| injection Hrun as _ <-; reflexivity].
    destruct data; try discriminate Hrun.
    apply bind_ok in Hrun as (items & _ & Hrun).
    apply bind_ok in Hrun as (d1 & _ & Hrun). injection Hrun as _ <-. reflexivity. }
  lia.
Qed.

Lemma backfill_one_attempts (dw dw' : dict * world) (kv : string * Z) :
  backfill_one net py_hash py_repr today state_code dw kv = Ok dw' ->
  (attempts (snd dw) <= attempts (snd dw')
   <= attempts (snd dw) + (if (snd kv =? 0)%Z then 0 else 3))%nat.
Proof.
  destruct dw as [d w], dw' as [d' w'], kv as [name count]. cbn [snd].
  unfold backfill_one. destruct (count =? 0)%Z.
  { intros H; injection H as _ <-. lia. }
  destruct (found_in name d).
  { intros H; injection H as _ <-. lia. }
  intros Hrun. apply bind_ok in Hrun as ([data w1] & Hcall & Hrun).
  apply api_call_attempts in Hcall as (n & Hn & Hatt & _).
  apply bind_ok in Hrun as (has_items & _ & Hrun).
  assert (Hw : attempts w' = attempts w1).
  { destruct has_items.
    - apply bind_ok in Hrun as ([k e] & _ & Hrun). injection Hrun as _ <-. reflexivity.
    - injection Hrun as _ <-. reflexivity. }
  lia.
Qed.

End AttemptBounds.

(** X10: A state costs at most three attempts for each of its query points
    and each of its known utilities with a nonzero customer count. *)
Theorem state_makes_bounded_attempts
  (net : nat -> query -> attempt) (py_hash : string -> Z) (py_repr : json -> string)
  (today state_code : string) (w w' : world) (results : list UtilityRecord)
  (Hrun : fetch_utilities_for_state net py_hash py_repr today state_code w = Ok (results, w')) :
  (attempts w <= attempts w'
   <= attempts w
      + 3 * (List.length (table_get STATE_QUERY_POINTS state_code [])
             + List.length (lookup_candidates (table_get MAJOR_IOUS state_code []))))%nat.
Proof.
  apply fetch_result in Hrun as (d1 & w1 & d2 & Hloop1 & Hloop2 & _).
  apply (for_each_cost (fun dw => attempts (snd dw)) (fun _ => 3%nat)) in Hloop1;
    [| intros s x s'; apply geo_point_attempts].
  apply (for_each_cost (fun dw => attempts (snd dw))
           (fun kv => if (snd kv =? 0)%Z then 0%nat else 3%nat)) in Hloop2;
    [| intros s x s'; apply backfill_one_attempts].
  cbn [snd] in Hloop1, Hloop2.
  assert (Hpoints : forall {A : Type} (l : list A),
             list_sum (map (fun _ => 3%nat) l) = (3 * List.length l)%nat).
  { intros A l. induction l as [| x l IH]; simpl; lia. }
  assert (Hknown : forall l : list (string * Z),
             list_sum (map (fun kv => if (snd kv =? 0)%Z then 0%nat else 3%nat) l)
             = (3 * List.length (lookup_candidates l))%nat).
  { intros l. unfold lookup_candidates.
    induction l as [| kv l IH]; [reflexivity |]. simpl.
    destruct (snd kv =? 0)%Z; simpl; lia. }
  rewrite Hpoints in Hloop1. rewrite Hknown in Hloop2. lia.
Qed.

Lemma state_makes_bounded_attempts_witness :
  match fetch_utilities_for_state net_down hash0 repr0 "2026-11-04" "AL" world0 with
  | Ok (_, w') => (attempts world0 <= attempts w' <= attempts world0 + 3 * (3 + 1))%nat
  | Raise _ => False
  end.
Proof.
  destruct (fetch_utilities_for_state net_down hash0 repr0 "2026-11-04" "AL" world0)
    as [[results w'] | e] eqn:Hrun.
  - exact (state_makes_bounded_attempts net_down hash0 repr0 "2026-11-04" "AL"
             world0 w' results Hrun).
  - vm_compute in Hrun. discriminate Hrun.
Defined.

(** ** Reconciler: a whole response *)

Lemma dict_get_some_in (k : pykey) (e : entry) (d : dict) :
  dict_get k d = Some e -> In (k, e) d.
Proof.
  induction d as [| [k' e'] d IH]; simpl; [discriminate |].
  destruct (key_eqb k k') eqn:E.
  - apply key_eqb_eq in E as <-. intros H; injection H as ->. left; reflexivity.
  - intros H. right. apply IH. exact H.
Qed.

Lemma dated_get (d : dict) (k : pykey) (e : entry) :
  dated d -> dict_get k d = Some e -> exists s, to_number (_startdate e) = Some s.
Proof.
  intros Hd Hget. apply dict_get_some_in in Hget. unfold dated in Hd.
  rewrite Forall_forall in Hd. apply Hd. apply in_map_iff. exists (k, e).
  split; [reflexivity | exact Hget].
Qed.

Section ResponseProperties.

Variable py_repr : json -> string.
Variable today : string.
Variable state_code : string.
Variable known_ious : list (string * Z).

Lemma at_least_as_new_set (d : dict) (k : pykey) (e : entry) (start : Q) (k0 : pykey) (s0 : Q) :
  to_number (_startdate e) = Some start ->
  (forall e0 s, dict_get k d = Some e0 -> to_number (_startdate e0) = Some s -> s <= start) ->
  at_least_as_new d k0 s0 ->
  at_least_as_new (dict_set k e d) k0 s0.
Proof.
  intros He Hold (e0 & s' & Hget & Hs' & Hle).
  destruct (key_eqb k0 k) eqn:E.
  - apply key_eqb_eq in E as ->. exists e, start. split; [apply dict_get_set_same |].
    split; [exact He |]. apply (Qle_trans _ s'); [exact Hle | apply (Hold e0 s' Hget Hs')].
  - exists e0, s'. split; [| split; assumption].
    rewrite dict_get_set_other; [exact Hget |]. intros ->. rewrite key_eqb_refl in E.
    discriminate E.
Qed.

(** One item: dates stay numeric, no key gets an older record, and the
    item's own key ends with a record at least as new as the item. *)
Lemma geo_item_newest (d : dict) (item : json) (d' : dict) :
  dated d -> datable item ->
  geo_item py_repr today state_code known_ious d item = Ok d' ->
  dated d'
  /\ (forall k s, at_least_as_new d k s -> at_least_as_new d' k s)
  /\ (forall it k s, item = JObj it -> item_key_date it k s -> at_least_as_new d' k s)
  /\ (forall k e, dict_get k d' = Some e ->
        dict_get k d = Some e
        \/ exists it s, item = JObj it /\ item_key_date it k s
                        /\ _startdate e = get_default it "startdate" (JInt 0)).
Proof.
  intros Hd Hitem Hstep. destruct item as [| | | | | | it]; try contradiction.
  cbn [datable] in Hitem. unfold geo_item in Hstep.
  destruct (truthy (get_default it "eiaid" JNull)) eqn:Htruthy; cbn [negb] in Hstep.
  2:{ injection Hstep as <-. repeat split; try assumption; try tauto.
      intros it' k s E (Ht & _). injection E as <-. rewrite Htruthy in Ht. discriminate Ht. }
  destruct (Hitem eq_refl) as [_ [start Hstart]].
  apply bind_ok in Hstep as (k & Hk & Hstep).
  assert (Hself : forall it' k' s', JObj it = JObj it' -> item_key_date it' k' s' ->
                    k' = k /\ s' == start /\ s' = start).
  { intros it' k' s' E (_ & Hk' & Hs'). injection E as <-.
    rewrite Hk in Hk'. injection Hk' as <-. rewrite Hstart in Hs'. injection Hs' as <-.
    repeat split; reflexivity. }
  assert (Haccept : forall e,
             geo_entry py_repr today state_code known_ious it (get_default it "eiaid" JNull)
               (get_default it "utility" (JStr "Unknown"))
               (get_default it "startdate" (JInt 0)) = Ok e ->
             (forall e0 s, dict_get k d = Some e0 -> to_number (_startdate e0) = Some s ->
                s <= start) ->
             dated (dict_set k e d)
             /\ (forall k0 s0, at_least_as_new d k0 s0 -> at_least_as_new (dict_set k e d) k0 s0)
             /\ (forall it' k' s', JObj it = JObj it' -> item_key_date it' k' s' ->
                   at_least_as_new (dict_set k e d) k' s')
             /\ (forall k0 e0, dict_get k0 (dict_set k e d) = Some e0 ->
                   dict_get k0 d = Some e0
                   \/ exists it' s', JObj it = JObj it' /\ item_key_date it' k0 s'
                                     /\ _startdate e0 = get_default it' "startdate" (JInt 0))).
  { intros e He Hold.
    pose proof (geo_entry_startdate _ _ _ _ _ _ _ _ _ He) as Hdate.
    assert (Hnum : to_number (_startdate e) = Some start) by (rewrite Hdate; exact Hstart).
    split; [| split; [| split]].
    - apply values_dict_set; [exact Hd | exists start; exact Hnum].
    - intros k0 s0. apply (at_least_as_new_set d k e start k0 s0 Hnum Hold).
    - intros it' k' s' E Hkd. destruct (Hself it' k' s' E Hkd) as (-> & _ & ->).
      exists e, start. split; [apply dict_get_set_same | split; [exact Hnum | apply Qle_refl]].
    - intros k0 e0 Hget. destruct (key_eqb k0 k) eqn:E.
      + apply key_eqb_eq in E as ->. rewrite dict_get_set_same in Hget. injection Hget as <-.
        right. exists it, start. repeat split; assumption.
      + left. rewrite dict_get_set_other in Hget; [exact Hget |].
        intros ->. rewrite key_eqb_refl in E. discriminate E. }
  destruct (dict_get k d) as [e0 |] eqn:Hget.
  - destruct (dated_get d k e0 Hd Hget) as [s0 Hs0].
    rewrite (py_gt_numbers _ _ _ _ Hstart Hs0) in Hstep. cbn [bind] in Hstep.
    destruct (Qlt_le_dec s0 start) as [Hlt | Hle]; cbn [negb] in Hstep.
    + apply bind_ok in Hstep as (e & He & Hstep). injection Hstep as <-.
      apply (Haccept e He). intros e1 s1 H1 Hs1. injection H1 as <-.
      rewrite Hs0 in Hs1. injection Hs1 as <-. apply Qlt_le_weak. exact Hlt.
    + injection Hstep as <-. split; [exact Hd |]. split; [tauto |]. split; [| tauto].
      intros it' k' s' E Hkd. destruct (Hself it' k' s' E Hkd) as (-> & _ & ->).
      exists e0, s0. repeat split; assumption.
  - cbn [bind negb] in Hstep. apply bind_ok in Hstep as (e & He & Hstep).
    injection Hstep as <-. apply (Haccept e He). intros e1 s1 H1. discriminate H1.
Qed.

Lemma geo_items_newest (items : list json) :
  forall d d',
    dated d -> Forall datable items ->
    for_each (geo_item py_repr today state_code known_ious) items d = Ok d' ->
    dated d'
    /\ (forall k s, at_least_as_new d k s -> at_least_as_new d' k s)
    /\ (forall it k s, In (JObj it) items -> item_key_date it k s -> at_least_as_new d' k s)
    /\ (forall k e, dict_get k d' = Some e ->
          dict_get k d = Some e
          \/ exists it s, In (JObj it) items /\ item_key_date it k s
                          /\ _startdate e = get_default it "startdate" (JInt 0)).
Proof.
  induction items as [| item items IH]; intros d d' Hd Hitems Hrun.
  - cbn in Hrun. injection Hrun as <-. repeat split; try assumption; try tauto.
    intros it k s [].
  - inversion Hitems as [| ? ? Hitem Hrest]; subst.
    cbn [for_each] in Hrun. apply bind_ok in Hrun as (d1 & Hstep & Hrun).
    destruct (geo_item_newest d item d1 Hd Hitem Hstep) as (Hd1 & Hmono1 & Hown1 & Hfrom1).
    destruct (IH d1 d' Hd1 Hrest Hrun) as (Hd' & Hmono & Hown & Hfrom).
    split; [exact Hd' |]. split; [| split].
    + intros k s H. apply Hmono, Hmono1, H.
    + intros it k s [E | Hin] Hkd.
      * apply Hmono. apply (Hown1 it k s); [exact E | exact Hkd].
      * apply (Hown it k s Hin Hkd).
    + intros k e Hget. destruct (Hfrom k e Hget) as [Hold | (it & s & Hin & Hkd & Hdate)].
      * destruct (Hfrom1 k e Hold) as [Hold1 | (it & s & E & Hkd & Hdate)];
          [left; exact Hold1 | right].
        exists it, s. split; [left; exact E | split; assumption].
      * right. exists it, s. split; [right; exact Hin | split; assumption].
Qed.

Lemma geo_items_settled (items : list json) (d : dict) :
  Forall datable items ->
  (forall it k s, In (JObj it) items -> item_key_date it k s -> at_least_as_new d k s) ->
  for_each (geo_item py_repr today state_code known_ious) items d = Ok d.
Proof.
  induction items as [| item items IH]; intros Hitems Hnew; [reflexivity |].
  inversion Hitems as [| ? ? Hitem Hrest]; subst. cbn [for_each].
  assert (Hstep : geo_item py_repr today state_code known_ious d item = Ok d).
  { destruct item as [| | | | | | it]; try contradiction. cbn [datable] in Hitem.
    destruct (truthy (get_default it "eiaid" JNull)) eqn:Htruthy.
    - destruct (Hitem eq_refl) as [[k Hk] [start Hstart]].
      destruct (Hnew it k start (or_introl eq_refl)) as (e0 & s0 & Hget & Hs0 & Hle);
        [repeat split; assumption |].
      apply (proj2 (proj2 (geo_item_decides py_repr today state_code known_ious it d k start
                             Htruthy Hk Hstart)) e0 s0 Hget Hs0 Hle).
    - unfold geo_item. rewrite Htruthy. reflexivity. }
  rewrite Hstep. cbn [bind]. apply IH; [exact Hrest |].
  intros it k s Hin. apply Hnew. right; exact Hin.
Qed.

End ResponseProperties.

(** X11: of the items of a response that share a key, the newest is kept:
    after the response every item with a usable id finds, under its key,
    a record that starts no earlier than the item; and every record is
    one the dictionary held before or starts when an item of the
    response with that key starts. *)
Theorem newest_item_of_response_is_kept
  (py_repr : json -> string) (today state_code : string) (known_ious : list (string * Z))
  (items : list json) (d d' : dict)
  (Hd : dated d) (Hitems : Forall datable items)
  (Hrun : for_each (geo_item py_repr today state_code known_ious) items d = Ok d') :
  (forall it k s, In (JObj it) items -> item_key_date it k s -> at_least_as_new d' k s)
  /\ (forall k e, dict_get k d' = Some e ->
        dict_get k d = Some e
        \/ exists it s, In (JObj it) items /\ item_key_date it k s
                        /\ _startdate e = get_default it "startdate" (JInt 0)).
Proof.
  destruct (geo_items_newest py_repr today state_code known_ious items d d' Hd Hitems Hrun)
    as (_ & _ & Hown & Hfrom).
  split; assumption.
Qed.

Lemma newest_item_of_response_is_kept_witness :
  at_least_as_new [(KNum (inject_Z 195),
                    {| public :=
                         {| utility_id := "195"; utility_name := "Alabama Power Co";
                            state := "AL"; states_served := ["AL"]; type := IOU;
                            customer_count := 1500000; residential_avg_rate := 1398 # 10000;
                            rate_structure := flat; has_net_metering := false;
                            net_metering_type := "avoided_cost"; export_rate := None;
                            tou_available := false; demand_charges := false;
                            updated_at := "2026-11-04" |};
                       _startdate := JInt 200; _rate_name := JStr "new";
                       _source := JStr "" |})]
                  (KNum (inject_Z 195)) (inject_Z 100).
Proof.
  assert (Hitems : Forall datable [JObj item_100; JObj item_200]).
  { apply Forall_cons; [| apply Forall_cons; [| apply Forall_nil]];
      intros _; (split; [eexists | eexists]; reflexivity). }
  refine (proj1 (newest_item_of_response_is_kept repr0 "2026-11-04" "AL"
                   (table_get MAJOR_IOUS "AL" []) [JObj item_100; JObj item_200] [] _
                   (Forall_nil _) Hitems eq_refl)
                item_100 (KNum (inject_Z 195)) (inject_Z 100) _ _).
  - left; reflexivity.
  - repeat split; reflexivity.
Defined.

(** X12: items that come again change nothing: after a response, processing
    any of its items once more, in any order and number, leaves every
    record as it is.  Query points of a state whose radii overlap return
    the same rates. *)
Theorem repeated_items_change_nothing
  (py_repr : json -> string) (today state_code : string) (known_ious : list (string * Z))
  (items again : list json) (d : dict)
  (Hd : dated d) (Hitems : Forall datable items) (Hagain : incl again items) :
  for_each (geo_item py_repr today state_code known_ious) (items ++ again) d
  = for_each (geo_item py_repr today state_code known_ious) items d.
Proof.
  rewrite for_each_app.
  destruct (for_each (geo_item py_repr today state_code known_ious) items d)
    as [d' | e] eqn:Hrun; [| reflexivity].
  cbn [bind].
  destruct (geo_items_newest py_repr today state_code known_ious items d d' Hd Hitems Hrun)
    as (_ & _ & Hown & _).
  apply geo_items_settled.
  - apply Forall_forall. intros item Hin. rewrite Forall_forall in Hitems.
    apply Hitems, Hagain, Hin.
  - intros it k s Hin. apply Hown. apply Hagain. exact Hin.
Qed.

Lemma repeated_items_change_nothing_witness :
  for_each (geo_item repr0 "2026-11-04" "AL" (table_get MAJOR_IOUS "AL" []))
           ([JObj item_100; JObj item_200] ++ [JObj item_200; JObj item_100; JObj item_200]) []
  = for_each (geo_item repr0 "2026-11-04" "AL" (table_get MAJOR_IOUS "AL" []))
             [JObj item_100; JObj item_200] [].
Proof.
  apply repeated_items_change_nothing.
  - apply Forall_nil.
  - apply Forall_cons; [| apply Forall_cons; [| apply Forall_nil]];
      intros _; (split; [eexists | eexists]; reflexivity).
  - intros x [<- | [<- | [<- | []]]]; simpl; tauto.
Defined.

(** ** Aggregator: the state files and the national file *)

Lemma main_loop_shape
  (net : nat -> query -> attempt) (py_hash : string -> Z) (py_repr : json -> string)
  (today : string) (states : list string) :
  forall files all_utilities summary w files' all_utilities' summary' w',
    for_each (main_step net py_hash py_repr today) states (files, all_utilities, summary, w)
    = Ok (files', all_utilities', summary', w') ->
    exists written,
      files' = (files ++ written)%list
      /\ map sd_state written = states
      /\ all_utilities' = (all_utilities ++ List.concat (map sd_utilities written))%list
      /\ summary' = (summary ++ map summary_of written)%list
      /\ Forall (fun sd => sd = state_data (sd_state sd) (sd_utilities sd)) written.
Proof.
  induction states as [| state_code states IH];
    intros files all_utilities summary w files' all_utilities' summary' w' Hrun.
  - cbn in Hrun. injection Hrun as <- <- <- <-. exists []. cbn. rewrite !app_nil_r.
    repeat split. constructor.
  - cbn [for_each] in Hrun. apply bind_ok in Hrun as ([[[f1 a1] s1] w1] & Hstep & Hrun).
    unfold main_step in Hstep. apply bind_ok in Hstep as ([utilities w0] & _ & Hstep).
    injection Hstep as <- <- <- <-.
    apply IH in Hrun as (written & -> & Hstates & -> & -> & Hall).
    exists (state_data state_code utilities :: written).
    split; [rewrite <- app_assoc; reflexivity |].
    split; [cbn [map]; f_equal; exact Hstates |].
    split; [rewrite <- app_assoc; reflexivity |].
    split; [rewrite <- app_assoc; reflexivity |].
    constructor; [reflexivity | exact Hall].
Qed.

(** X13: A run of [main] that reaches the national file wrote one state file
    for each of the 50 states, in alphabetical order of the state codes;
    the national list of utilities is the state lists one after the
    other, [total_utilities] is the sum of the states' [utility_count],
    and [state_summary] repeats the count and the two averages of each
    state file. *)
Theorem main_writes_one_file_per_state
  (net : nat -> query -> attempt) (py_hash : string -> Z) (py_repr : json -> string)
  (today api_key : string) (w w' : world) (files : list StateData) (national : NationalData)
  (Hrun : main net py_hash py_repr today api_key w = Ok (files, national, w')) :
  map sd_state files = sorted (map fst STATE_QUERY_POINTS)
  /\ Permutation (map sd_state files) (map fst STATE_QUERY_POINTS)
  /\ ascending (map sd_state files) = true
  /\ List.length files = 50%nat
  /\ states_covered national = 50%nat
  /\ utilities national = List.concat (map sd_utilities files)
  /\ total_utilities national = list_sum (map utility_count files)
  /\ state_summary national = map summary_of files
  /\ Forall (fun sd => sd = state_data (sd_state sd) (sd_utilities sd)) files.
Proof.
  unfold main in Hrun. destruct (String.eqb api_key ""); [discriminate Hrun |].
  apply bind_ok in Hrun as ([[[fs us] ss] w1] & Hloop & Hrun).
  injection Hrun as <- <- <-.
  apply main_loop_shape in Hloop as (written & -> & Hstates & -> & -> & Hall).
  cbn [app]. cbn [national_data states_covered utilities total_utilities state_summary].
  assert (Hlen : List.length written = 50%nat).
  { rewrite <- (length_map sd_state), Hstates. reflexivity. }
  split; [exact Hstates |]. rewrite Hstates.
  split; [| split; [reflexivity | split; [exact Hlen | split; [| split; [| split]]]]].
  - assert (Hins : forall s l, Permutation (insert_string s l) (s :: l)).
    { intros s l. induction l as [| t l IH]; cbn [insert_string]; [apply Permutation_refl |].
      destruct (String.leb s t); [apply Permutation_refl |].
      eapply Permutation_trans; [apply perm_skip; exact IH | apply perm_swap]. }
    generalize (map fst STATE_QUERY_POINTS). intros l.
    induction l as [| s l IH]; cbn [sorted fold_right]; [apply Permutation_refl |].
    eapply Permutation_trans; [apply Hins | apply perm_skip; exact IH].
  - rewrite length_map. exact Hlen.
  - reflexivity.
  - rewrite length_concat, map_map.
    assert (Hcount : forall l,
               Forall (fun sd => sd = state_data (sd_state sd) (sd_utilities sd)) l ->
               map (fun sd => List.length (sd_utilities sd)) l = map utility_count l).
    { intros l Hl. induction Hl as [| sd l Hsd _ IH]; [reflexivity |].
      cbn [map]. rewrite IH. f_equal. rewrite Hsd at 2. reflexivity. }
    rewrite (Hcount written Hall). reflexivity.
  - split; [reflexivity | exact Hall].
Qed.

Lemma main_writes_one_file_per_state_witness :
  match main net_down hash0 repr0 "2026-11-04" "KEY" world0 with
  | Ok (files, national, _) =>
      List.length files = 50%nat
      /\ total_utilities national = list_sum (map utility_count files)
  | Raise _ => False
  end.
Proof.
  destruct (main net_down hash0 repr0 "2026-11-04" "KEY" world0)
    as [[[files national] w'] | e] eqn:Hrun.
  - pose proof (main_writes_one_file_per_state net_down hash0 repr0 "2026-11-04" "KEY"
                  world0 w' files national Hrun) as H.
    split; [apply H | apply H].
  - vm_compute in Hrun. discriminate Hrun.
Defined.

(** ** Aggregator: the average of a state *)

Lemma inject_succ (n : nat) : inject_Z (Z.of_nat (S n)) == inject_Z (Z.of_nat n) + 1.
Proof. rewrite Nat2Z.inj_succ, <- Z.add_1_r, inject_Z_plus. reflexivity. Qed.

Lemma py_sum_bounds (a b : Q) (xs : list Q) :
  Forall (fun x => a <= x /\ x <= b) xs ->
  forall acc,
    acc + inject_Z (Z.of_nat (List.length xs)) * a <= fold_left Qplus xs acc
    /\ fold_left Qplus xs acc <= acc + inject_Z (Z.of_nat (List.length xs)) * b.
Proof.
  induction 1 as [| x xs [Hlo Hhi] _ IH]; intros acc.
  - cbn [fold_left List.length Z.of_nat]. change (inject_Z 0) with 0. lra.
  - cbn [fold_left List.length]. destruct (IH (acc + x)) as [IHlo IHhi].
    rewrite inject_succ. nra.
Qed.

(** X14: the average rate of a state file is 0 for a state without records
    (the sum is divided by 1, not by 0) and otherwise lies between the
    bounds of the records' rates, so within [0.01, 1.0] when they do. *)
Theorem state_average_is_plausible (state_code : string) (utilities : list UtilityRecord) :
  utility_count (state_data state_code utilities) = List.length utilities
  /\ avg_residential_rate (state_data state_code []) == 0
  /\ (utilities <> [] ->
      Forall (fun r => in_plausible_range (residential_avg_rate r)) utilities ->
      in_plausible_range (avg_residential_rate (state_data state_code utilities))).
Proof.
  split; [reflexivity |]. split; [reflexivity |].
  intros Hne Hall. cbn [state_data avg_residential_rate].
  apply py_round_4_in_range.
  assert (Hn : Nat.max (List.length utilities) 1 = List.length (map residential_avg_rate utilities)).
  { rewrite length_map. destruct utilities; [contradiction Hne; reflexivity | cbn; lia]. }
  rewrite Hn.
  assert (Hrates : Forall (fun x => 1 # 100 <= x /\ x <= 1) (map residential_avg_rate utilities)).
  { apply Forall_map. exact Hall. }
  destruct (py_sum_bounds (1 # 100) 1 _ Hrates 0) as [Hlo Hhi].
  assert (Hpos : 0 < inject_Z (Z.of_nat (List.length (map residential_avg_rate utilities)))).
  { change 0 with (inject_Z 0). rewrite <- Zlt_Qlt. lia. }
  unfold py_sum. split.
  - apply Qle_shift_div_l; [exact Hpos | lra].
  - apply Qle_shift_div_r; [exact Hpos | lra].
Qed.

Lemma state_average_is_plausible_witness :
  in_plausible_range
    (avg_residential_rate
       (state_data "DE"
          [public (synthesized hash0 repr0 "2026-11-04" "DE" "Delmarva Power" 310000)])).
Proof.
  refine (proj2 (proj2 (state_average_is_plausible "DE"
            [public (synthesized hash0 repr0 "2026-11-04" "DE" "Delmarva Power" 310000)])) _ _).
  - discriminate.
  - constructor; [| constructor]. split; vm_compute; discriminate.
Defined.

(** ** Reconciler: a service that cannot be reached *)

Lemma dict_set_fresh (k : pykey) (e : entry) (d : dict) :
  (forall k' e', In (k', e') d -> k' <> k) -> dict_set k e d = (d ++ [(k, e)])%list.
Proof.
  induction d as [| [k0 e0] d IH]; intros Hfresh; [reflexivity |].
  cbn [dict_set app]. rewrite key_eqb_neq.
  - rewrite IH; [reflexivity |]. intros k' e' Hin. apply (Hfresh k' e'). right; exact Hin.
  - intros ->. apply (Hfresh k0 e0); [left; reflexivity | reflexivity].
Qed.

Lemma lookup_candidates_app (a b : list (string * Z)) :
  lookup_candidates (a ++ b) = (lookup_candidates a ++ lookup_candidates b)%list.
Proof. apply filter_app. Qed.

Lemma synthesized_entries_snoc (py_hash : string -> Z) (py_repr : json -> string)
  (today state_code : string) (done : list (string * Z)) (name : string) (count : Z) :
  synthesized_entries py_hash py_repr today state_code (done ++ [(name, count)])
  = (synthesized_entries py_hash py_repr today state_code done
     ++ if (count =? 0)%Z then []
        else [(KNum (inject_Z (py_hash name)),
               synthesized py_hash py_repr today state_code name count)])%list.
Proof.
  unfold synthesized_entries. rewrite lookup_candidates_app, map_app. f_equal.
  cbn [lookup_candidates filter snd]. destruct (count =? 0)%Z; reflexivity.
Qed.

Section Unreachable.

Variable net : nat -> query -> attempt.
Variable py_hash : string -> Z.
Variable py_repr : json -> string.
Variable today : string.
Variable state_code : string.

Hypothesis Hdown : forall i q, exists e, net i q = Failed e /\ caught e = true.

Lemma api_call_down (q : query) (w : world) :
  exists w', api_call net q 3 w = Ok (JNull, w').
Proof.
  destruct (api_call_exhausted net q w (fun i _ => Hdown (attempts w + i) q))
    as (w' & H & _).
  exists w'. exact H.
Qed.

Lemma geo_loop_down (known_ious : list (string * Z)) (points : list (string * Q * Q)) :
  forall w, exists w',
    for_each (geo_point net py_repr today state_code known_ious) points ([], w) = Ok ([], w').
Proof.
  induction points as [| [[city lat] lon] points IH]; intros w.
  - exists w. reflexivity.
  - destruct (api_call_down (GeoQuery lat lon) w) as [w1 Hcall].
    destruct (IH w1) as [w' Hrest]. exists w'.
    cbn [for_each geo_point]. rewrite Hcall. cbn [bind truthy negb]. exact Hrest.
Qed.

Lemma backfill_down (todo : list (string * Z)) :
  forall done w,
    distinct_names (map fst (done ++ todo)) = true ->
    (forall a ca b cb,
       In (a, ca) (done ++ todo) -> In (b, cb) (done ++ todo) ->
       py_hash a = py_hash b -> a = b) ->
    exists w',
      for_each (backfill_one net py_hash py_repr today state_code) todo
               (synthesized_entries py_hash py_repr today state_code done, w)
      = Ok (synthesized_entries py_hash py_repr today state_code (done ++ todo), w').
Proof.
  induction todo as [| [name count] todo IH]; intros done w Hdist Hhash.
  - exists w. rewrite app_nil_r. reflexivity.
  - assert (Hcons : ((done ++ [(name, count)]) ++ todo = done ++ (name, count) :: todo)%list).
    { rewrite <- app_assoc. reflexivity. }
    assert (Hstep : exists w1,
               backfill_one net py_hash py_repr today state_code
                 (synthesized_entries py_hash py_repr today state_code done, w) (name, count)
               = Ok (synthesized_entries py_hash py_repr today state_code
                       (done ++ [(name, count)]), w1)).
    { rewrite synthesized_entries_snoc. unfold backfill_one.
      destruct (Z.eqb_spec count 0) as [-> | Hcount].
      { exists w. rewrite app_nil_r. reflexivity. }
      assert (Hothers : forall b cb, In (b, cb) done -> names_match name b = false).
      { intros b cb Hin. rewrite map_app in Hdist. cbn [map fst] in Hdist.
        apply (distinct_names_split _ _ _ Hdist). apply in_or_app. left.
        apply in_map_iff. exists (b, cb). split; [reflexivity | exact Hin]. }
      assert (Hin_done : forall k e,
                 In (k, e) (synthesized_entries py_hash py_repr today state_code done) ->
                 exists b cb, In (b, cb) done
                              /\ k = KNum (inject_Z (py_hash b))
                              /\ utility_name (public e) = b).
      { intros k e Hin. unfold synthesized_entries in Hin.
        apply in_map_iff in Hin as ([b cb] & Heq & Hin). injection Heq as <- <-.
        apply filter_In in Hin as [Hin _]. exists b, cb. repeat split. exact Hin. }
      rewrite found_in_unmatched.
      2:{ intros k e Hin. destruct (Hin_done k e Hin) as (b & cb & Hb & _ & ->).
          apply (Hothers b cb Hb). }
      destruct (api_call_down (NameQuery name) w) as [w1 Hcall].
      rewrite Hcall. cbn [bind direct_has_items truthy negb].
      exists (sleep (3 # 10) w1). f_equal. f_equal.
      apply dict_set_fresh. intros k e Hin Hk.
      destruct (Hin_done k e Hin) as (b & cb & Hb & -> & _).
      injection Hk as Hk.
      assert (Hbn : b = name).
      { apply (Hhash b cb name count); [apply in_or_app; left; exact Hb | | exact Hk].
        apply in_or_app. right; left; reflexivity. }
      subst b. pose proof (Hothers name cb Hb) as Hself.
      rewrite names_match_refl in Hself. discriminate Hself. }
    destruct Hstep as [w1 Hstep].
    destruct (IH (done ++ [(name, count)])%list w1) as [w' Hrest].
    + rewrite Hcons. exact Hdist.
    + rewrite Hcons. exact Hhash.
    + exists w'. cbn [for_each]. rewrite Hstep. cbn [bind].
      rewrite Hcons in Hrest. exact Hrest.
Qed.

End Unreachable.

(** X15: when no query of a state gets through (every attempt ends in an
    exception of the [except] clause) and the hashes of the state's
    known names differ, the state's list is the reference data: one
    synthesized record for each known utility with a nonzero customer
    count, and nothing else, sorted by count. *)
Theorem unreachable_service_lists_known_utilities
  (net : nat -> query -> attempt) (py_hash : string -> Z) (py_repr : json -> string)
  (today state_code : string) (w : world)
  (Hdown : forall i q, exists e, net i q = Failed e /\ caught e = true)
  (Hhash : forall a ca b cb,
      In (a, ca) (table_get MAJOR_IOUS state_code []) ->
      In (b, cb) (table_get MAJOR_IOUS state_code []) ->
      py_hash a = py_hash b -> a = b) :
  exists w',
    fetch_utilities_for_state net py_hash py_repr today state_code w
    = Ok (sort_by_count
            (map (fun kv => public (synthesized py_hash py_repr today state_code
                                      (fst kv) (snd kv)))
                 (lookup_candidates (table_get MAJOR_IOUS state_code []))),
          w').
Proof.
  unfold fetch_utilities_for_state.
  destruct (geo_loop_down net py_repr today state_code Hdown
              (table_get MAJOR_IOUS state_code [])
              (table_get STATE_QUERY_POINTS state_code []) w) as [w1 Hgeo].
  destruct (backfill_down net py_hash py_repr today state_code Hdown
              (table_get MAJOR_IOUS state_code []) [] w1
              (known_names_distinct state_code) Hhash) as [w' Hback].
  exists w'. cbv zeta. unfold dict in *. rewrite Hgeo. cbn [bind]. cbn [app] in Hback.
  change (synthesized_entries py_hash py_repr today state_code []) with (@nil (pykey * entry))
    in Hback.
  rewrite Hback. cbn [bind]. f_equal. f_equal. f_equal.
  unfold synthesized_entries, values. rewrite !map_map. reflexivity.
Qed.

Lemma unreachable_service_lists_known_utilities_witness :
  exists w',
    fetch_utilities_for_state net_down (fun name => Z.of_nat (String.length name)) repr0
      "2026-11-04" "CT" world0
    = Ok (sort_by_count
            (map (fun kv => public (synthesized (fun name => Z.of_nat (String.length name))
                                      repr0 "2026-11-04" "CT" (fst kv) (snd kv)))
                 (lookup_candidates (table_get MAJOR_IOUS "CT" []))),
          w').
Proof.
  apply unreachable_service_lists_known_utilities.
  - intros i q. exists URLError. split; reflexivity.
  - intros a ca b cb [Ha | [Ha | []]] [Hb | [Hb | []]] Hh;
      injection Ha as <- <-; injection Hb as <- <-;
      first [reflexivity | discriminate Hh].
Defined.

(** ** Record extractor: what it reads *)

Lemma classify_rate_structure_sound_witness :
  (tou = tou <-> two_distinct_periods (get_default tou_item "energyweekdayschedule" (JArr [])))
  /\ (tou = tiered <->
      ~ two_distinct_periods (get_default tou_item "energyweekdayschedule" (JArr []))
      /\ some_period_tiered (get_default tou_item "energyratestructure" (JArr []))).
Proof.
  exact (classify_rate_structure_sound tou_item tou eq_refl).
Defined.

(** X18: the rate, the classification and the demand-charge flag of an item
    depend on six of its fields only: two items that agree on them get
    the same three results, whatever else they hold. *)
Theorem extractor_reads_only_its_fields (a b : obj)
  (Hsame : forall k, In k extractor_fields -> obj_get k a = obj_get k b) :
  extract_rate_from_structure a = extract_rate_from_structure b
  /\ classify_rate_structure a = classify_rate_structure b
  /\ has_demand_charges a = has_demand_charges b.
Proof.
  assert (H1 := Hsame "energyratestructure" ltac:(simpl; tauto)).
  assert (H2 := Hsame "fixedmonthlycharge" ltac:(simpl; tauto)).
  assert (H3 := Hsame "energyweekdayschedule" ltac:(simpl; tauto)).
  assert (H4 := Hsame "demandratestructure" ltac:(simpl; tauto)).
  assert (H5 := Hsame "flatdemandstructure" ltac:(simpl; tauto)).
  assert (H6 := Hsame "demandmax" ltac:(simpl; tauto)).
  split; [| split].
  - unfold extract_rate_from_structure, rate_from_tiers, rate_from_fixed_charge.
    rewrite H1, H2. reflexivity.
  - unfold classify_rate_structure, get_default. rewrite H1, H3. reflexivity.
  - unfold has_demand_charges, get_default. rewrite H4, H5, H6. reflexivity.
Qed.

Lemma extractor_reads_only_its_fields_witness :
  extract_rate_from_structure two_tier_item
  = extract_rate_from_structure (("name", JStr "Residential Service") :: two_tier_item).
Proof.
  refine (proj1 (extractor_reads_only_its_fields two_tier_item
                   (("name", JStr "Residential Service") :: two_tier_item) _)).
  intros k Hk. simpl in Hk.
  destruct Hk as [<- | [<- | [<- | [<- | [<- | [<- | []]]]]]]; reflexivity.
Defined.

(** ** Reconciler: the direct-name lookup *)

(** X17: of the items a direct-name lookup returns only the first is used:
    two responses whose [items] start with the same item give the same
    key and the same record. *)
Theorem direct_lookup_uses_first_item
  (py_hash : string -> Z) (py_repr : json -> string) (today state_code name : string)
  (count : Z) (m1 m2 : obj) (first : json) (rest1 rest2 : list json)
  (H1 : obj_get "items" m1 = Some (JArr (first :: rest1)))
  (H2 : obj_get "items" m2 = Some (JArr (first :: rest2))) :
  direct_has_items (JObj m1) = Ok true
  /\ direct_has_items (JObj m2) = Ok true
  /\ direct_record py_hash py_repr today state_code name count (JObj m1)
     = direct_record py_hash py_repr today state_code name count (JObj m2).
Proof.
  assert (Hm1 : m1 <> []) by (intros ->; discriminate H1).
  assert (Hm2 : m2 <> []) by (intros ->; discriminate H2).
  unfold direct_has_items, direct_record, py_in_items, py_getitem_items.
  rewrite H1, H2. cbn [truthy]. destruct m1; [contradiction Hm1; reflexivity |].
  destruct m2; [contradiction Hm2; reflexivity |]. repeat split.
Qed.

Lemma direct_lookup_uses_first_item_witness :
  direct_record hash0 repr0 "2026-11-04" "FL" "JEA" 490000
    (JObj [("items", JArr [JObj item_200; JObj item_100])])
  = direct_record hash0 repr0 "2026-11-04" "FL" "JEA" 490000
      (JObj [("items", JArr [JObj item_200])]).
Proof.
  exact (proj2 (proj2 (direct_lookup_uses_first_item hash0 repr0 "2026-11-04" "FL" "JEA"
                         490000 [("items", JArr [JObj item_200; JObj item_100])]
                         [("items", JArr [JObj item_200])] (JObj item_200) [JObj item_100] []
                         eq_refl eq_refl))).
Defined.

